(** * Treasury package generator: a shallow embedding of [generator.py]

    The development follows the class [TreasuryPackageGenerator]:
    the Formatter ([format_date_written], [number_to_words],
    [_digit_words]), the Replacement-Map Builder ([prepare_replacements]),
    the Substitution Engine ([replace_text_in_file]) and the batch loop of
    [generate_package]; then the Document Processor ([process_docx_xml]) and
    the conversion, merge and archive steps of [generate_full_package].

    Modelling conventions.
    - Python [str] is [string]; text is taken to be 7-bit ASCII, so that
      [len] is [String.length] and [upper]/[lower] act on the letters a-z/A-Z
      only.
    - Python [int] is [Z]; [//] and [%] with a positive divisor are [Z.div]
      and [Z.modulo].
    - A Python exception is a value [Raise e] of the type [result].
    - A [dict] is an association list in insertion order (the order in which
      Python iterates it).
    - The library functions follow CPython on a POSIX platform with the C
      locale: [strptime] through its regular expression, [strftime] with
      English month names, [os.path.join] on slash-separated paths. *)

From Stdlib Require Import ZArith List String Ascii Bool Lia.
From Stdlib Require Import Permutation Sorted DecimalString.
From Stdlib Require OrdersEx.
Import ListNotations.

Open Scope string_scope.
Open Scope Z_scope.

(** ** Exceptions *)

Inductive PyError : Set :=
| ValueError
| IndexError
| OverflowError
| RecursionError.

Inductive result (A : Type) : Type :=
| Ok (a : A)
| Raise (e : PyError).

Arguments Ok {A} a.
Arguments Raise {A} e.

Definition bind {A B : Type} (r : result A) (f : A -> result B) : result B :=
  match r with
  | Ok a => f a
  | Raise e => Raise e
  end.

Notation "x <- r ;; k" := (bind r (fun x => k))
  (at level 61, r at next level, right associativity).

(** ** Python string primitives *)

Module PyStr.

Definition is_empty (s : string) : bool :=
  match s with
  | EmptyString => true
  | String _ _ => false
  end.

(** Truthiness of a string: [if s:] *)
Definition truthy (s : string) : bool := negb (is_empty s).

Definition code (c : ascii) : Z := Z.of_nat (nat_of_ascii c).

Definition chr (z : Z) : ascii := ascii_of_nat (Z.to_nat z).

Definition upper_char (c : ascii) : ascii :=
  if (97 <=? code c) && (code c <=? 122) then chr (code c - 32) else c.

Definition lower_char (c : ascii) : ascii :=
  if (65 <=? code c) && (code c <=? 90) then chr (code c + 32) else c.

Fixpoint map_chars (f : ascii -> ascii) (s : string) : string :=
  match s with
  | EmptyString => EmptyString
  | String c s' => String (f c) (map_chars f s')
  end.

(** [s.upper()] and [s.lower()] *)
Definition upper (s : string) : string := map_chars upper_char s.
Definition lower (s : string) : string := map_chars lower_char s.

(** [str.isspace] on one ASCII character: TAB..CR, FS..US and SPACE. *)
Definition is_space (c : ascii) : bool :=
  ((9 <=? code c) && (code c <=? 13)) || ((28 <=? code c) && (code c <=? 32)).

(** removal of the leading and of the trailing characters that satisfy
    [space] *)
Fixpoint lstrip_with (space : ascii -> bool) (s : string) : string :=
  match s with
  | EmptyString => EmptyString
  | String c s' => if space c then lstrip_with space s' else s
  end.

Fixpoint rstrip_with (space : ascii -> bool) (s : string) : string :=
  match s with
  | EmptyString => EmptyString
  | String c s' =>
      let r := rstrip_with space s' in
      if space c && is_empty r then EmptyString else String c r
  end.

(** [s.strip()] *)
Definition strip (s : string) : string :=
  rstrip_with is_space (lstrip_with is_space s).

(** [s[0]] for a non-empty [s]; callers guard the empty case. *)
Definition first_char (s : string) : string :=
  match s with
  | EmptyString => EmptyString
  | String c _ => String c EmptyString
  end.

(** [s[:n]] for [n >= 0] *)
Fixpoint take (n : nat) (s : string) : string :=
  match n, s with
  | S k, String c s' => String c (take k s')
  | _, _ => EmptyString
  end.

(** [sep.join(l)] *)
Fixpoint join (sep : string) (l : list string) : string :=
  match l with
  | [] => EmptyString
  | [x] => x
  | x :: l' => x ++ sep ++ join sep l'
  end.

(** One left-to-right scan of [s.replace(old, new)] for a non-empty [old]:
    [skip] counts the characters of a match that are still to be dropped. *)
Fixpoint replace_from (skip : nat) (old new s : string) : string :=
  match s with
  | EmptyString => EmptyString
  | String c s' =>
      match skip with
      | S k => replace_from k old new s'
      | O =>
          if prefix old s
          then new ++ replace_from (Nat.pred (String.length old)) old new s'
          else String c (replace_from O old new s')
      end
  end.

(** With an empty [old], Python inserts [new] before every character and
    at the end. *)
Fixpoint replace_empty (new s : string) : string :=
  match s with
  | EmptyString => new
  | String c s' => new ++ String c (replace_empty new s')
  end.

(** [s.replace(old, new)] *)
Definition replace (old new s : string) : string :=
  if is_empty old then replace_empty new s else replace_from O old new s.

(** [old in s] *)
Fixpoint occurs (old s : string) : bool :=
  prefix old s ||
  match s with
  | EmptyString => false
  | String _ s' => occurs old s'
  end.

Fixpoint mem_char (c : ascii) (s : string) : bool :=
  match s with
  | EmptyString => false
  | String d s' => Ascii.eqb c d || mem_char c s'
  end.

(** [s.endswith(suffix)] *)
Fixpoint endswith (s suffix : string) : bool :=
  String.eqb s suffix ||
  match s with
  | EmptyString => false
  | String _ s' => endswith s' suffix
  end.

(** [str(n)] for an integer *)
Definition of_int (z : Z) : string := NilEmpty.string_of_int (Z.to_int z).

End PyStr.

(** [xs[i]] on a Python list, negative indices counting from the end. *)
Definition py_index (xs : list string) (i : Z) : result string :=
  let n := Z.of_nat (List.length xs) in
  let j := if i <? 0 then i + n else i in
  if (0 <=? j) && (j <? n)
  then match nth_error xs (Z.to_nat j) with
       | Some x => Ok x
       | None => Raise IndexError
       end
  else Raise IndexError.

(** ** Formatter *)

Definition ones : list string :=
  [""; "ONE"; "TWO"; "THREE"; "FOUR"; "FIVE"; "SIX"; "SEVEN"; "EIGHT"; "NINE";
   "TEN"; "ELEVEN"; "TWELVE"; "THIRTEEN"; "FOURTEEN"; "FIFTEEN"; "SIXTEEN";
   "SEVENTEEN"; "EIGHTEEN"; "NINETEEN"].

Definition tens : list string :=
  [""; ""; "TWENTY"; "THIRTY"; "FORTY"; "FIFTY"; "SIXTY"; "SEVENTY"; "EIGHTY";
   "NINETY"].

(** [_digit_words], with the depth of the recursion made explicit.  The
    recursive call is on [n % 100], which lies in [0, 99], so the depth never
    exceeds two; see [_digit_words_fuel_stable]. *)
Fixpoint _digit_words_fuel (fuel : nat) (n : Z) : result string :=
  match fuel with
  | O => Raise RecursionError
  | S fuel' =>
      if n <? 20 then py_index ones n
      else if n <? 100 then
        t <- py_index tens (n / 10) ;;
        u <- (if n mod 10 =? 0 then Ok ""
              else o <- py_index ones (n mod 10) ;; Ok ("-" ++ o)) ;;
        Ok (t ++ u)
      else
        h <- py_index ones (n / 100) ;;
        r <- (if n mod 100 =? 0 then Ok ""
              else w <- _digit_words_fuel fuel' (n mod 100) ;; Ok (" " ++ w)) ;;
        Ok (h ++ " HUNDRED" ++ r)
  end.

Definition _digit_words (n : Z) : result string := _digit_words_fuel 2 n.

(** One [if x: words.append(...)] step of [number_to_words]. *)
Definition append_magnitude (words : list string) (x : Z) (name : string)
  : result (list string) :=
  if x =? 0 then Ok words
  else w <- _digit_words x ;; Ok (List.app words [w ++ " " ++ name]).

Definition number_to_words (num : Z) : result string :=
  let billions := num / 1000000000 in
  let millions := (num mod 1000000000) / 1000000 in
  let thousands := (num mod 1000000) / 1000 in
  words <- append_magnitude [] billions "BILLION" ;;
  words <- append_magnitude words millions "MILLION" ;;
  words <- append_magnitude words thousands "THOUSAND" ;;
  Ok (match words with
      | [] => "ZERO"
      | _ => PyStr.join " " words
      end).

(** *** Dates: [datetime.strptime(date_str, "%Y-%m-%d")] and [strftime] *)

Module PyDate.

Record datetime : Set := mk_datetime { year : Z; month : Z; day : Z }.

Definition in_range (lo hi : Z) (c : ascii) : bool :=
  (lo <=? PyStr.code c) && (PyStr.code c <=? hi).

(** value of an ASCII digit character *)
Definition digit_val (c : ascii) : Z := PyStr.code c - 48.

Definition is_digit (c : ascii) : bool := in_range 48 57 c.

(** A regular-expression fragment maps the remaining input to the list of
    its possible matches, first choice first: the value read and the input
    left over. *)
Definition matcher (A : Type) : Type := string -> list (A * string).

(** [%Y] is the group [\d\d\d\d] *)
Definition re_Y : matcher Z := fun s =>
  match s with
  | String a (String b (String c (String d r))) =>
      if is_digit a && is_digit b && is_digit c && is_digit d
      then [(1000 * digit_val a + 100 * digit_val b
             + 10 * digit_val c + digit_val d, r)]
      else []
  | _ => []
  end.

Definition re_lit (x : ascii) : matcher unit := fun s =>
  match s with
  | String c r => if Ascii.eqb c x then [(tt, r)] else []
  | EmptyString => []
  end.

(** two characters, the first in [[a1,a2]] and the second in [[b1,b2]] *)
Definition two_chars (a1 a2 b1 b2 : Z) (val : ascii -> ascii -> Z)
  : matcher Z := fun s =>
  match s with
  | String a (String b r) =>
      if in_range a1 a2 a && in_range b1 b2 b then [(val a b, r)] else []
  | _ => []
  end.

(** one digit in [1-9] *)
Definition one_digit : matcher Z := fun s =>
  match s with
  | String a r => if in_range 49 57 a then [(digit_val a, r)] else []
  | EmptyString => []
  end.

Definition two_digit_val (a b : ascii) : Z := 10 * digit_val a + digit_val b.

(** [%m] is [1[0-2]|0[1-9]|[1-9]] *)
Definition re_m : matcher Z := fun s =>
  (two_chars 49 49 48 50 two_digit_val s
   ++ two_chars 48 48 49 57 two_digit_val s
   ++ one_digit s)%list.

(** [%d] is [3[0-1]|[1-2]\d|0[1-9]|[1-9]| [1-9]] *)
Definition re_d : matcher Z := fun s =>
  (two_chars 51 51 48 49 two_digit_val s
   ++ two_chars 49 50 48 57 two_digit_val s
   ++ two_chars 48 48 49 57 two_digit_val s
   ++ one_digit s
   ++ two_chars 32 32 49 57 (fun _ b => digit_val b) s)%list.

(** the part [-%m-%d] of the format *)
Definition re_md : matcher (Z * Z) := fun r1 =>
  flat_map (fun '(_, r2) =>
  flat_map (fun '(m, r3) =>
  flat_map (fun '(_, r4) =>
  List.map (fun '(d, r5) => ((m, d), r5)) (re_d r4))
    (re_lit "-" r3)) (re_m r2)) (re_lit "-" r1).

(** All matches of the compiled format [%Y-%m-%d] at the start of [s], in
    the order in which a backtracking matcher finds them. *)
Definition format_regex : matcher (Z * Z * Z) := fun s =>
  flat_map (fun '(y, r1) =>
    List.map (fun '((m, d), r5) => ((y, m, d), r5)) (re_md r1)) (re_Y s).

Definition is_leap (y : Z) : bool :=
  (y mod 4 =? 0) && (negb (y mod 100 =? 0) || (y mod 400 =? 0)).

Definition days_in_month (y m : Z) : Z :=
  if m =? 2 then (if is_leap y then 29 else 28)
  else if (m =? 4) || (m =? 6) || (m =? 9) || (m =? 11) then 30
  else 31.

(** the range checks of the [datetime] constructor *)
Definition valid_date (y m d : Z) : bool :=
  (1 <=? y) && (y <=? 9999) && (1 <=? m) && (m <=? 12)
  && (1 <=? d) && (d <=? days_in_month y m).

(** [datetime.strptime(s, "%Y-%m-%d")]: the first match of the format must
    consume the whole input and describe a date of the calendar; anything
    else is a [ValueError]. *)
Definition strptime (s : string) : result datetime :=
  match format_regex s with
  | [] => Raise ValueError
  | ((y, m, d), rest) :: _ =>
      if negb (PyStr.is_empty rest) then Raise ValueError
      else if valid_date y m d then Ok (mk_datetime y m d)
      else Raise ValueError
  end.

Definition month_names : list string :=
  ["January"; "February"; "March"; "April"; "May"; "June"; "July";
   "August"; "September"; "October"; "November"; "December"].

(** [%B], in the C locale *)
Definition strftime_B (dt : datetime) : string :=
  nth (Z.to_nat (month dt - 1)) month_names "".

(** [%Y]: the year as a decimal number; the C library of the platform
    (glibc) does not pad the years below 1000. *)
Definition strftime_Y (dt : datetime) : string := PyStr.of_int (year dt).

End PyDate.

(** the ordinal suffix computed inside [format_date_written] *)
Definition ordinal_suffix (day : Z) : string :=
  if (11 <=? day) && (day <=? 13) then "th"
  else if day mod 10 =? 1 then "st"
  else if day mod 10 =? 2 then "nd"
  else if day mod 10 =? 3 then "rd"
  else "th".

(** [format_date_written]: the bare [except:] turns every failure of
    [strptime] into the unchanged input.  The format handed to [strftime] is
    ["%B {day}{suffix}, %Y"]; the interpolated day and suffix contain no
    directive and are copied as they are. *)
Definition format_date_written (date_str : string) : string :=
  if negb (PyStr.truthy date_str) then ""
  else
    match PyDate.strptime date_str with
    | Ok dt =>
        let day := PyDate.day dt in
        let suffix := ordinal_suffix day in
        PyDate.strftime_B dt ++ " " ++ PyStr.of_int day ++ suffix ++ ", "
        ++ PyDate.strftime_Y dt
    | Raise _ => date_str
    end.

(** *** Integers: [int(x)] and the format specification [,.2f] *)

Module PyNum.

(** the value of a customer field that [int()] is applied to *)
Inductive value : Set :=
| VInt (n : Z)
| VStr (s : string).

(** digits of an integer literal, with single underscores allowed between
    digits; [acc] is the value read so far, [count] the number of digits,
    [after_digit] tells whether the previous character was a digit *)
Fixpoint int_digits (s : string) (acc : Z) (count : nat) (after_digit : bool)
  : option (Z * nat) :=
  match s with
  | EmptyString => if after_digit then Some (acc, count) else None
  | String c s' =>
      if PyDate.is_digit c
      then int_digits s' (10 * acc + PyDate.digit_val c) (S count) true
      else if Ascii.eqb c "_" && after_digit
           then int_digits s' acc count false
           else None
  end.

(** [sys.int_info.default_max_str_digits] *)
Definition max_str_digits : nat := 4300.

(** the whitespace that [int()] skips around an ASCII literal: TAB..CR
    and SPACE *)
Definition is_int_space (c : ascii) : bool :=
  ((9 <=? PyStr.code c) && (PyStr.code c <=? 13)) || (PyStr.code c =? 32).

(** [int(s)] for a string: surrounding whitespace, an optional sign, then
    decimal digits. *)
Definition int_of_str (s : string) : result Z :=
  let body :=
    PyStr.rstrip_with is_int_space (PyStr.lstrip_with is_int_space s) in
  let '(sign, digits) :=
    match body with
    | String "-" r => (-1, r)
    | String "+" r => (1, r)
    | _ => (1, body)
    end in
  match int_digits digits 0 O false with
  | Some (n, count) =>
      if Nat.ltb max_str_digits count then Raise ValueError
      else Ok (sign * n)
  | None => Raise ValueError
  end.

(** [int(x)] *)
Definition int (x : value) : result Z :=
  match x with
  | VInt n => Ok n
  | VStr s => int_of_str s
  end.

(** Conversion of an integer to a binary64 float, as the [f] presentation
    type does first: round to 53 significant bits, ties to even, and
    [OverflowError] from 2^1024 on.  The float obtained is an integer. *)
Definition to_float (n : Z) : result Z :=
  let a := Z.abs n in
  let r :=
    if a <? 2 ^ 53 then a
    else
      let shift := Z.log2 a + 1 - 53 in
      let q := Z.shiftr a shift in
      let rem := a - Z.shiftl q shift in
      let half := Z.shiftl 1 (shift - 1) in
      let q' := if (half <? rem) || ((rem =? half) && Z.odd q)
                then q + 1 else q in
      Z.shiftl q' shift in
  if 2 ^ 1024 <=? r then Raise OverflowError else Ok (Z.sgn n * r).

(** thousands separators, on the reversed digits *)
Fixpoint group_rev (fuel : nat) (rev_digits : list ascii) : list ascii :=
  match fuel with
  | O => rev_digits
  | S fuel' =>
      match rev_digits with
      | a :: b :: c :: (_ :: _) as rest =>
          a :: b :: c :: ","%char :: group_rev fuel' rest
      | _ => rev_digits
      end
  end.

Definition group_thousands (digits : string) : string :=
  let l := list_ascii_of_string digits in
  string_of_list_ascii (rev (group_rev (List.length l) (rev l))).

(** [f"{n:,.2f}"] for an integer [n] *)
Definition format_comma_2f (n : Z) : result string :=
  v <- to_float n ;;
  Ok ((if v <? 0 then "-" else "")
      ++ group_thousands (PyStr.of_int (Z.abs v)) ++ ".00").

End PyNum.

(** ** Data model *)

(** The customer record: a [dict] whose fields may all be absent.  The
    string fields hold strings; [lienAmount] holds an integer or a string
    that [int()] converts. *)
Record CustomerRecord : Set := mk_customer {
  firstName : option string;
  middleName : option string;
  lastName : option string;
  ssn : option string;
  lienAmount : option PyNum.value;
  documentDate : option string;
  birthDate : option string;
  streetAddress : option string;
  city : option string;
  state : option string;
  zipCode : option string;
  county : option string;
  uccFilingNumber : option string;
  uccFilingState : option string;
  registeredMailNumber : option string;
  dtcRoutingNumber : option string;
  dtcAccountNumber : option string;
  birthCertNumber : option string
}.

(** [data.get(field, default)] *)
Definition get {A : Type} (field : option A) (default : A) : A :=
  match field with
  | Some v => v
  | None => default
  end.

(** A replacement map, in insertion order. *)
Definition ReplacementMap : Set := list (string * string).

(** [m[key]] as an optional value *)
Fixpoint lookup (key : string) (m : ReplacementMap) : option string :=
  match m with
  | [] => None
  | (k, v) :: m' => if String.eqb k key then Some v else lookup key m'
  end.

Definition keys (m : ReplacementMap) : list string := List.map fst m.

(** ** Replacement-Map Builder *)

Definition default_lien_amount : Z := 100000000.

(** the prefix of the file reference numbers:
    [last[:3].upper() if last else 'XXX'] *)
Definition ref_prefix (last : string) : string :=
  if PyStr.truthy last then PyStr.upper (PyStr.take 3 last) else "XXX".

Definition prepare_replacements (data : CustomerRecord)
  : result ReplacementMap :=
  let first := get (firstName data) "" in
  let middle := get (middleName data) "" in
  let last := get (lastName data) "" in
  let full_parts :=
    if PyStr.truthy middle then [first; middle; last] else [first; last] in
  let full_name_upper := PyStr.upper (PyStr.join " " full_parts) in
  let full_name_styled :=
    if PyStr.truthy middle then first ++ "-" ++ middle ++ ": " ++ last
    else first ++ ": " ++ last in
  let ssn := get (ssn data) "" in
  let ssn_no_dashes := PyStr.replace "-" "" ssn in
  lien_amount <- PyNum.int (get (lienAmount data)
                                (PyNum.VInt default_lien_amount)) ;;
  lien_2f <- PyNum.format_comma_2f lien_amount ;;
  let lien_formatted := "$" ++ lien_2f in
  lien_words <- number_to_words lien_amount ;;
  let doc_date := get (documentDate data) "" in
  let doc_date_written := format_date_written doc_date in
  let birth_date := get (birthDate data) "" in
  let birth_date_written := format_date_written birth_date in
  lien_1000_2f <- PyNum.format_comma_2f (lien_amount * 1000) ;;
  lien_1000_words <- number_to_words (lien_amount * 1000) ;;
  Ok [
    ("THOMAS KALLEN CLAYCOMB", full_name_upper);
    ("THOMAS K CLAYCOMB", full_name_upper);
    ("THOMAS CLAYCOMB", PyStr.upper (first ++ " " ++ last));
    ("T KALLEN CLAYCOMB",
       if PyStr.truthy middle
       then PyStr.upper
              ((if PyStr.truthy first then PyStr.first_char first else "")
               ++ " " ++ middle ++ " " ++ last)
       else full_name_upper);
    ("TKC",
       if PyStr.truthy first && PyStr.truthy last
       then PyStr.upper
              (PyStr.first_char first
               ++ (if PyStr.truthy middle then PyStr.first_char middle else "")
               ++ PyStr.first_char last)
       else "");
    ("Thomas-Kallen: Claycomb", full_name_styled);
    ("Thomas-Kallen: CLaycomb", full_name_styled);
    ("Thomas K. Claycomb",
       PyStr.replace " ." ""
         (PyStr.strip
            (first ++ " "
             ++ (if PyStr.truthy middle then PyStr.first_char middle else "")
             ++ ". " ++ last)));
    ("Thomas Kallen Claycomb",
       if PyStr.truthy middle then first ++ " " ++ middle ++ " " ++ last
       else first ++ " " ++ last);
    ("493-74-8357", ssn);
    ("493748357", ssn_no_dashes);
    ("**493-74-8357**", "**" ++ ssn ++ "**");
    ("**493748357**", "**" ++ ssn_no_dashes ++ "**");
    ("#493-74-8357", "#" ++ ssn);
    ("#493748357", "#" ++ ssn_no_dashes);
    ("6316 East 113th Avenue", get (streetAddress data) "");
    ("c/o 6316 East 113th Avenue", "c/o " ++ get (streetAddress data) "");
    ("6316 EAST 113TH AVENUE", PyStr.upper (get (streetAddress data) ""));
    ("Temple Terrace", get (city data) "");
    ("TEMPLE TERRACE", PyStr.upper (get (city data) ""));
    ("Florida", get (state data) "");
    ("FLORIDA", PyStr.upper (get (state data) ""));
    ("Florida Republic", get (state data) "" ++ " Republic");
    ("Florida State", get (state data) "" ++ " State");
    ("33617", get (zipCode data) "");
    ("[33617]", "[" ++ get (zipCode data) "" ++ "]");
    ("near [33617]", "near [" ++ get (zipCode data) "" ++ "]");
    ("Hillsborough", get (county data) "");
    ("HILLSBOROUGH", PyStr.upper (get (county data) ""));
    ("Hillsborough County", get (county data) "" ++ " County");
    ("HILLSBOROUGH COUNTY", PyStr.upper (get (county data) "") ++ " COUNTY");
    ("XXXXXXXXXXXXX", get (uccFilingNumber data) "");
    ("xxxxxxxxxxxxxxxxx", get (uccFilingNumber data) "");
    ("XXXXXXXXXXXXXX", get (uccFilingNumber data) "");
    ("numberXXXXXXXXXXX", "number" ++ get (uccFilingNumber data) "");
    ("New York", get (uccFilingState data) "");
    ("NEW YORK", PyStr.upper (get (uccFilingState data) ""));
    ("RF737860948US", get (registeredMailNumber data) "");
    ("**RF737860948US**", "**" ++ get (registeredMailNumber data) "" ++ "**");
    ("RF737860934US", get (registeredMailNumber data) "");
    ("0810-0004-5", get (dtcRoutingNumber data) "");
    ("????????", get (dtcRoutingNumber data) "");
    ("053045139", get (dtcAccountNumber data) "");
    ("$100,000,000.00", lien_formatted);
    ("\$100,000,000.00", lien_formatted);
    ("ONE HUNDRED MILLION", lien_words);
    ("one hundred million", PyStr.lower lien_words);
    ("$100,000,000,000.00", "$" ++ lien_1000_2f);
    ("ONE HUNDRED BILLION", lien_1000_words);
    ("April 7, 2025", doc_date_written);
    ("April 7th, 2025", doc_date_written);
    ("March 25, 2025", doc_date_written);
    ("March 9, 2025", doc_date_written);
    ("4/7/2025", if PyStr.truthy doc_date then doc_date else "");
    ("October 12th 1962", birth_date_written);
    ("October 12th, 1962", birth_date_written);
    ("124-62-071026", get (birthCertNumber data) "");
    ("109-71-015876", get (birthCertNumber data) "");
    ("109-1971-015876", get (birthCertNumber data) "");
    ("TKC020371ANP", ref_prefix last ++ "020371ANP");
    ("TKC-101362HHIA", ref_prefix last ++ "-101362HHIA");
    ("TKC-101262CLC", ref_prefix last ++ "-101262CLC");
    ("TKC-101262-CAD", ref_prefix last ++ "-101262-CAD");
    ("101262HHIA", "101262HHIA");
    ("JAD-SA020371", ref_prefix last ++ "-SA020371");
    ("TKC -- 10121962",
       ref_prefix last ++ " -- "
       ++ (if PyStr.truthy birth_date then PyStr.replace "-" "" birth_date
           else ""))
  ].

(** ** Substitution Engine *)

Definition key_len (item : string * string) : nat := String.length (fst item).

(** [sorted(items, key=lambda x: len(x[0]), reverse=True)] is a stable sort:
    items whose keys have the same length keep the order of the dict. *)
Fixpoint insert_item (x : string * string) (l : list (string * string))
  : list (string * string) :=
  match l with
  | [] => [x]
  | y :: l' =>
      if Nat.ltb (key_len x) (key_len y) then y :: insert_item x l'
      else x :: l
  end.

Fixpoint sorted_items (replacements : ReplacementMap)
  : list (string * string) :=
  match replacements with
  | [] => []
  | x :: m => insert_item x (sorted_items m)
  end.

(** the body of the [for old, new in sorted_items] loop *)
Definition replace_step (result : string) (item : string * string) : string :=
  let '(old, new) := item in
  if PyStr.truthy old && PyStr.truthy new
  then PyStr.replace old new result
  else result.

Definition replace_text_in_file (content : string)
  (replacements : ReplacementMap) : string :=
  fold_left replace_step (sorted_items replacements) content.

(** ** Package Orchestrator *)

(** [os.path.join(a, b)] on POSIX paths *)
Definition path_join (a b : string) : string :=
  if prefix "/" b then b
  else if PyStr.is_empty a || PyStr.endswith a "/" then a ++ b
  else a ++ "/" ++ b.

(** the output file name derived from a template name *)
Definition output_name (customer_data : CustomerRecord)
  (template_name : string) : string :=
  let last_name := get (lastName customer_data) "Customer" in
  PyStr.replace "_JAD" ("_" ++ last_name)
    (PyStr.replace "_TKC" ("_" ++ last_name) template_name).

(** [templates.sort()]: ascending order of the names *)
Fixpoint insert_name (x : string) (l : list string) : list string :=
  match l with
  | [] => [x]
  | y :: l' => if String.ltb y x then y :: insert_name x l' else x :: l
  end.

Fixpoint sort_names (l : list string) : list string :=
  match l with
  | [] => []
  | x :: l' => insert_name x (sort_names l')
  end.

Record PackageResult : Set := mk_result {
  generated : list string;
  errors : list (string * string);
  output_dir : string
}.

Section Orchestrator.

(** The file system and the container format are outside the program.
    [World] is their state; each operation takes the state and returns the
    new one.  The messages printed by the loop are not modelled. *)
Variable World : Type.

(** [os.makedirs(path, exist_ok=True)] *)
Variable makedirs : string -> World -> result World.

(** [os.listdir(path)] *)
Variable listdir : string -> World -> result (list string).

(** [process_docx_xml(docx_path, replacements, output_path)]: [None] when
    the call returns, [Some msg] when it raises an [Exception] [e] with
    [str(e) = msg]. *)
Variable process_docx_xml :
  string -> ReplacementMap -> string -> World -> World * option string.

(** the [for template_name in templates] loop, on the accumulators
    [generated_files] and [errors] *)
Fixpoint process_templates (template_dir out_dir : string)
  (customer_data : CustomerRecord) (replacements : ReplacementMap)
  (templates : list string)
  (generated_files : list string) (errs : list (string * string))
  (w : World) : list string * list (string * string) * World :=
  match templates with
  | [] => (generated_files, errs, w)
  | template_name :: rest =>
      let template_path := path_join template_dir template_name in
      let output_path :=
        path_join out_dir (output_name customer_data template_name) in
      match process_docx_xml template_path replacements output_path w with
      | (w', None) =>
          process_templates template_dir out_dir customer_data replacements
            rest (List.app generated_files [output_path]) errs w'
      | (w', Some msg) =>
          process_templates template_dir out_dir customer_data replacements
            rest generated_files (List.app errs [(template_name, msg)]) w'
      end
  end.

(** What happens to one template: its name, the output path and the
    failure message, if any. *)
Record outcome : Set := mk_outcome {
  template : string;
  out_path : string;
  failure : option string
}.

(** The run of the batch over [templates] from the state [w]: every template
    in turn, each in the state its predecessors left. *)
Fixpoint outcomes (template_dir out_dir : string)
  (customer_data : CustomerRecord) (replacements : ReplacementMap)
  (templates : list string) (w : World) : list outcome :=
  match templates with
  | [] => []
  | template_name :: rest =>
      let output_path :=
        path_join out_dir (output_name customer_data template_name) in
      let '(w', r) :=
        process_docx_xml (path_join template_dir template_name)
          replacements output_path w in
      mk_outcome template_name output_path r
      :: outcomes template_dir out_dir customer_data replacements rest w'
  end.

Definition succeeded (trace : list outcome) : list string :=
  flat_map (fun o => match failure o with
                     | None => [out_path o]
                     | Some _ => []
                     end) trace.

Definition failed (trace : list outcome) : list (string * string) :=
  flat_map (fun o => match failure o with
                     | None => []
                     | Some msg => [(template o, msg)]
                     end) trace.

Definition generate_package (template_dir : string)
  (customer_data : CustomerRecord) (out_dir : string) (w : World)
  : result (PackageResult * World) :=
  w <- makedirs out_dir w ;;
  replacements <- prepare_replacements customer_data ;;
  names <- listdir template_dir w ;;
  let templates :=
    sort_names (filter (fun f => PyStr.endswith f ".docx") names) in
  let '(generated_files, errs, w) :=
    process_templates template_dir out_dir customer_data replacements
      templates [] [] w in
  Ok (mk_result generated_files errs out_dir, w).

End Orchestrator.

(** ** Paths: [os.path.dirname] and [os.path.basename] (POSIX) *)

Module PyPath.

Definition is_sep (c : ascii) : bool := Ascii.eqb c "/".

(** [p[:i]] for [i = p.rfind('/') + 1]: the path up to its last slash *)
Fixpoint head (p : string) : string :=
  match p with
  | EmptyString => EmptyString
  | String c p' =>
      if PyStr.mem_char "/" p' then String c (head p')
      else if is_sep c then "/" else EmptyString
  end.

(** [os.path.basename(p)]: [p[i:]] for [i = p.rfind('/') + 1] *)
Fixpoint basename (p : string) : string :=
  match p with
  | EmptyString => EmptyString
  | String c p' =>
      if PyStr.mem_char "/" p' then basename p'
      else if is_sep c then p' else p
  end.

Definition all_sep (s : string) : bool :=
  forallb is_sep (list_ascii_of_string s).

(** [os.path.dirname(p)]: the head, without its trailing slashes unless it
    consists of slashes only *)
Definition dirname (p : string) : string :=
  let h := head p in
  if PyStr.truthy h && negb (all_sep h) then PyStr.rstrip_with is_sep h
  else h.

End PyPath.

(** ** Document Processor *)

(** the internal parts that [process_docx_xml] rewrites *)
Definition xml_files : list string :=
  ["word/document.xml";
   "word/header1.xml"; "word/header2.xml"; "word/header3.xml";
   "word/footer1.xml"; "word/footer2.xml"; "word/footer3.xml"].

Section DocumentProcessor.

(** The container format and the files are outside the program.  [Bytes] is
    the content of a file.  The scratch directory is new for every call and
    removed at the end, so it is a value of the call: the files that
    [extractall] has put there, by their path relative to it.  The order and
    the metadata of the members of an archive are not modelled. *)
Variable World : Type.
Variable Bytes : Type.

Definition Tree : Type := list (string * Bytes).

(** [ZipFile(docx_path, 'r').extractall(temp_dir)]: the files extracted, or
    the message of the exception raised *)
Variable extractall : string -> World -> string + Tree.

(** [open(path, 'r', encoding='utf-8').read()] on a file with the given
    content: the text, or the message of the exception raised *)
Variable read_text : Bytes -> string + string.

(** the content that [open(path, 'w', encoding='utf-8').write(text)] leaves
    in the file *)
Variable write_text : string -> Bytes.

(** the repacking of the scratch directory into the archive [output_path]:
    [None] when it succeeds, the message of the exception otherwise *)
Variable write_archive : string -> Tree -> World -> World * option string.

(** [os.path.exists] in the scratch directory, with the content found *)
Fixpoint lookup_file (name : string) (tree : Tree) : option Bytes :=
  match tree with
  | [] => None
  | (n, b) :: tree' =>
      if String.eqb n name then Some b else lookup_file name tree'
  end.

(** the file [name] after it has been written again *)
Fixpoint update_file (name : string) (b : Bytes) (tree : Tree) : Tree :=
  match tree with
  | [] => []
  | (n, b0) :: tree' =>
      (n, if String.eqb n name then b else b0) :: update_file name b tree'
  end.

(** the body of the [for xml_file in xml_files] loop *)
Definition process_part (replacements : ReplacementMap)
  (tree : Tree) (xml_file : string) : string + Tree :=
  match lookup_file xml_file tree with
  | None => inr tree
  | Some b =>
      match read_text b with
      | inl msg => inl msg
      | inr content =>
          let modified := replace_text_in_file content replacements in
          inr (update_file xml_file (write_text modified) tree)
      end
  end.

(** the loop, which an exception leaves *)
Fixpoint process_parts (replacements : ReplacementMap)
  (names : list string) (tree : Tree) : string + Tree :=
  match names with
  | [] => inr tree
  | xml_file :: rest =>
      match process_part replacements tree xml_file with
      | inl msg => inl msg
      | inr tree' => process_parts replacements rest tree'
      end
  end.

(** [process_docx_xml], as [generate_package] sees it: the new state and the
    message of the exception, if one is raised *)
Definition process_docx_xml (docx_path : string)
  (replacements : ReplacementMap) (output_path : string) (w : World)
  : World * option string :=
  match extractall docx_path w with
  | inl msg => (w, Some msg)
  | inr tree =>
      match process_parts replacements xml_files tree with
      | inl msg => (w, Some msg)
      | inr tree' => write_archive output_path tree' w
      end
  end.

End DocumentProcessor.

(** ** Conversion, merge and archive *)

Record PdfOutputs : Set := mk_pdf_outputs {
  pdf_files : list string;
  merged_pdf : string;
  zip_file : string
}.

Section FullPackage.

Variable World : Type.
Variable makedirs : string -> World -> result World.
Variable listdir : string -> World -> result (list string).
Variable process_document :
  string -> ReplacementMap -> string -> World -> World * option string.

(** [subprocess.run(['soffice', '--headless', '--convert-to', 'pdf',
    '--outdir', output_dir, docx_path], ...)]: the return code of the
    process and the new state, or the exception raised when the process
    cannot be started *)
Variable run_soffice : string -> string -> World -> result (Z * World).

(** [os.path.exists] *)
Variable path_exists : string -> World -> bool.

(** The pages of a PDF file that [merge_pdfs] adds to the writer before the
    file is exhausted or an exception ends the reading of that file. *)
Variable Page : Type.
Variable pages_added : string -> World -> list Page.

(** the writing of the merged file; a missing [pypdf] makes it raise *)
Variable write_pdf : string -> list Page -> World -> result World.

(** the writing of an archive by [zf.write(file_path, arcname)] for each of
    the given pairs (arcname, file path) *)
Variable write_zip : string -> list (string * string) -> World -> result World.

(** the [for docx_path in docx_files] loop on the accumulator [pdf_files] *)
Fixpoint convert_loop (docx_files : list string) (pdfs : list string)
  (w : World) : result (list string * World) :=
  match docx_files with
  | [] => Ok (pdfs, w)
  | docx_path :: rest =>
      let out_dir := PyPath.dirname docx_path in
      r <- run_soffice out_dir docx_path w ;;
      let '(returncode, w') := r in
      if returncode =? 0 then
        let pdf_path := PyStr.replace ".docx" ".pdf" docx_path in
        if path_exists pdf_path w'
        then convert_loop rest (List.app pdfs [pdf_path]) w'
        else convert_loop rest pdfs w'
      else convert_loop rest pdfs w'
  end.

Definition convert_all_to_pdf (docx_files : list string) (w : World)
  : result (list string * World) :=
  convert_loop docx_files [] w.

(** the pages that [merge_pdfs] writes: those of the files in sorted order *)
Definition merged_pages (pdfs : list string) (w : World) : list Page :=
  flat_map (fun pdf_file => pages_added pdf_file w) (sort_names pdfs).

Definition merge_pdfs (pdfs : list string) (output_path : string)
  (w : World) : result World :=
  write_pdf output_path (merged_pages pdfs w) w.

(** the pairs (arcname, file path) that [create_zip_package] passes to
    [ZipFile.write] *)
Definition zip_members (files : list string) : list (string * string) :=
  List.map (fun file_path => (PyPath.basename file_path, file_path)) files.

Definition create_zip_package (files : list string) (output_path : string)
  (w : World) : result World :=
  write_zip output_path (zip_members files) w.

Definition is_nil {A : Type} (l : list A) : bool :=
  match l with
  | [] => true
  | _ :: _ => false
  end.

(** the names of the merged file and of the archive *)
Definition package_file_name (customer_data : CustomerRecord)
  (suffix : string) : string :=
  let last_name := get (lastName customer_data) "Customer" in
  let doc_date := get (documentDate customer_data) "undated" in
  "Treasury_Package_" ++ last_name ++ "_" ++ doc_date ++ suffix.

(** [generate_full_package]: the result of [generate_package], and the three
    entries added to it when a document has been generated *)
Definition generate_full_package (template_dir : string)
  (customer_data : CustomerRecord) (out_dir : string) (w : World)
  : result (PackageResult * option PdfOutputs * World) :=
  r <- generate_package World makedirs listdir process_document
         template_dir customer_data out_dir w ;;
  let '(res, w) := r in
  if is_nil (generated res) then Ok (res, None, w)
  else
    c <- convert_all_to_pdf (generated res) w ;;
    let '(pdfs, w) := c in
    let merged := path_join out_dir
                    (package_file_name customer_data "_COMPLETE.pdf") in
    w <- (if is_nil pdfs then Ok w else merge_pdfs pdfs merged w) ;;
    let zip_path := path_join out_dir
                      (package_file_name customer_data
                         "_Individual_PDFs.zip") in
    w <- (if is_nil pdfs then Ok w else create_zip_package pdfs zip_path w) ;;
    Ok (res, Some (mk_pdf_outputs pdfs merged zip_path), w).

End FullPackage.

(** ** Sample records *)

Definition no_fields : CustomerRecord :=
  mk_customer None None None None None None None None None None None None
              None None None None None None.

(** the record of [main] *)
Definition sample_data : CustomerRecord :=
  mk_customer (Some "John") (Some "Michael") (Some "Smith")
    (Some "123-45-6789") (Some (PyNum.VStr "100000000")) (Some "2025-01-15")
    (Some "1985-06-15") (Some "456 Oak Lane") (Some "Houston")
    (Some "Texas") (Some "77001") (Some "Harris") (Some "202512345678")
    (Some "New York") (Some "RF123456789US") (Some "0810-0001-2")
    (Some "012345678") (Some "124-85-061589").


(** the placeholder literals, in the order of the dict literal *)
Definition placeholder_keys : list string :=
  Eval vm_compute in
    match prepare_replacements no_fields with
    | Ok m => keys m
    | Raise _ => []
    end.

(** an entry that the engine applies: key and value both non-empty *)
Definition active (item : string * string) : bool :=
  PyStr.truthy (fst item) && PyStr.truthy (snd item).

(** the hypothesis of the idempotence property of the specification: no
    replacement value equals another key of the map *)
Definition no_value_is_another_key (m : ReplacementMap) : Prop :=
  forall k v k' v', In (k, v) m -> In (k', v') m -> k' <> k -> v <> k'.

(** a date in slash-separated numeric form, as the legacy literal 4/7/2025
    is: digit groups separated by slashes *)
Definition is_slash_numeric (s : string) : bool :=
  PyStr.mem_char "/" s
  && forallb (fun c => PyDate.is_digit c || Ascii.eqb c "/")
       (list_ascii_of_string s).

(** the map built for the record of [main] *)
Definition sample_replacements : ReplacementMap :=
  Eval vm_compute in
    match prepare_replacements sample_data with
    | Ok m => m
    | Raise _ => []
    end.


(** A corpus of five templates, among other files, in which the container
    of the third template cannot be opened.  The state counts the documents
    written. *)
Definition corpus_listdir (path : string) (w : nat) : result (list string) :=
  Ok ["05_Notice_TKC.docx"; "02_Security_JAD.docx"; "notes.txt";
      "01_Cover_TKC.docx"; "04_Affidavit_TKC.docx"; "03_Copyright_TKC.docx"].

Definition corpus_makedirs (path : string) (w : nat) : result nat := Ok w.

Definition corpus_process (docx_path : string) (replacements : ReplacementMap)
  (output_path : string) (w : nat) : nat * option string :=
  if String.eqb docx_path "templates/03_Copyright_TKC.docx"
  then (w, Some "File is not a zip file")
  else (S w, None).

(** the check that [_digit_words] spells the segment [k] *)
Definition digit_words_defined (k : nat) : bool :=
  match _digit_words (Z.of_nat k) with
  | Ok w => PyStr.truthy w
  | Raise _ => false
  end.

(** the order in which the engine applies two entries *)
Definition longer_or_equal (a b : string * string) : Prop :=
  (key_len b <= key_len a)%nat.

(** a list of strings without repetition *)
Definition string_in (l : list string) (s : string) : bool :=
  existsb (String.eqb s) l.

Fixpoint distinct (l : list string) : bool :=
  match l with
  | [] => true
  | x :: l' => negb (string_in l' x) && distinct l'
  end.

(** [c] is a character of the key of some active entry of [m] *)
Definition key_char (m : ReplacementMap) (c : ascii) : bool :=
  existsb (fun item => active item && PyStr.mem_char c (fst item)) m.

(** no character of the value of an active entry occurs in the key of an
    active entry *)
Definition values_avoid_keys (m : ReplacementMap) : Prop :=
  forall k v c, In (k, v) m -> active (k, v) = true ->
                PyStr.mem_char c v = true -> key_char m c = false.

(** [fresh] holds of every character of [s] *)
Definition all_fresh (fresh : ascii -> bool) (s : string) : Prop :=
  forall c, PyStr.mem_char c s = true -> fresh c = true.

(** [fresh] holds of no character of [s] *)
Definition none_fresh (fresh : ascii -> bool) (s : string) : Prop :=
  forall c, PyStr.mem_char c s = true -> fresh c = false.

(** the character of a decimal digit *)
Definition digit_char (z : Z) : ascii := PyStr.chr (48 + z).

(** the text [-MM-DD] of a month and a day *)
Definition iso_month_day (m d : Z) : string :=
  String "-" (String (digit_char (m / 10)) (String (digit_char (m mod 10))
  (String "-" (String (digit_char (d / 10)) (String (digit_char (d mod 10))
  ""))))).

(** the ISO 8601 text [YYYY-MM-DD] of a date *)
Definition iso_date (y m d : Z) : string :=
  String (digit_char (y / 1000)) (String (digit_char (y / 100 mod 10))
  (String (digit_char (y / 10 mod 10)) (String (digit_char (y mod 10))
  (iso_month_day m d)))).

(** the check that the first match of [-%m-%d] on [-MM-DD] reads the month
    and the day and consumes the text *)
Definition month_day_parsed (m d : Z) : bool :=
  match PyDate.re_md (iso_month_day m d) with
  | ((m', d'), EmptyString) :: _ => (m' =? m) && (d' =? d)
  | _ => false
  end.

Definition zrange (lo len : nat) : list Z := List.map Z.of_nat (seq lo len).

(** the check that [_digit_words] returns on [k - 20] *)
Definition digit_words_returns (k : nat) : bool :=
  match _digit_words (Z.of_nat k - 20) with
  | Ok _ => true
  | Raise _ => false
  end.

(** an entry that maps a key to itself *)
Definition maps_to_itself (item : string * string) : bool :=
  String.eqb (fst item) (snd item).

(** the order of [templates.sort()] and of [sorted(pdf_files)] *)
Definition name_le (a b : string) : Prop := String.leb a b = true.

(** the file names that [generate_package] keeps from a listing *)
Definition is_docx (f : string) : bool := PyStr.endswith f ".docx".

(** [l1] is made of elements of [l2], in the order of [l2] *)
Inductive subsequence {A : Type} : list A -> list A -> Prop :=
| sub_nil : subsequence [] []
| sub_skip (x : A) (l1 l2 : list A) :
    subsequence l1 l2 -> subsequence l1 (x :: l2)
| sub_keep (x : A) (l1 l2 : list A) :
    subsequence l1 l2 -> subsequence (x :: l1) (x :: l2).

(** the path at which [convert_all_to_pdf] looks for the converted file *)
Definition pdf_path_of (docx_path : string) : string :=
  PyStr.replace ".docx" ".pdf" docx_path.

(** a converter that fails on the second document, and a file system in
    which every converted file exists *)
Definition corpus_soffice (out_dir docx_path : string) (w : nat)
  : result (Z * nat) :=
  if String.eqb docx_path "out/02_Security_Smith.docx"
  then Ok (1, w) else Ok (0, S w).

Definition corpus_exists (path : string) (w : nat) : bool := true.

(** the run of [generate_full_package] on the corpus of five templates *)
Definition corpus_full_result : PackageResult * option PdfOutputs * nat :=
  Eval vm_compute in
    match generate_full_package nat corpus_makedirs corpus_listdir
            corpus_process corpus_soffice corpus_exists string
            (fun f _ => [f]) (fun _ _ w => Ok w) (fun _ _ w => Ok w)
            "templates" sample_data "out" O with
    | Ok r => r
    | Raise _ => (mk_result [] [] "", None, O)
    end.

(** Three containers: one with a body, a header and a picture, one whose
    body is not UTF-8 text, one without any of the parts.  The content of a
    file is a string; a content that starts with the byte 255 cannot be
    decoded. *)
Definition corpus_extractall (docx_path : string) (w : nat)
  : string + list (string * string) :=
  if String.eqb docx_path "good.docx"
  then inr [("[Content_Types].xml", "<Types/>");
            ("word/document.xml", "Dear THOMAS CLAYCOMB of Florida");
            ("word/header1.xml", "493-74-8357");
            ("word/media/image1.png", "THOMAS CLAYCOMB")]
  else if String.eqb docx_path "bad.docx"
  then inr [("word/header1.xml", "493-74-8357");
            ("word/document.xml", String (ascii_of_nat 255) "")]
  else if String.eqb docx_path "bare.docx"
  then inr [("[Content_Types].xml", "<Types/>")]
  else inl "File is not a zip file".

Definition corpus_read_text (b : string) : string + string :=
  if prefix (String (ascii_of_nat 255) "") b
  then inl "'utf-8' codec can't decode byte 0xff in position 0"
  else inr b.

Definition corpus_write_archive (output_path : string)
  (tree : list (string * string)) (w : nat) : nat * option string :=
  (S w, None).

(** the files of the first container, and what the loop of
    [process_docx_xml] makes of them with the map of the sample record *)
Definition corpus_good_tree : list (string * string) :=
  [("[Content_Types].xml", "<Types/>");
   ("word/document.xml", "Dear THOMAS CLAYCOMB of Florida");
   ("word/header1.xml", "493-74-8357");
   ("word/media/image1.png", "THOMAS CLAYCOMB")].

Definition corpus_good_output : list (string * string) :=
  Eval vm_compute in
    match process_parts string corpus_read_text (fun text => text)
            sample_replacements xml_files corpus_good_tree with
    | inr tree => tree
    | inl _ => []
    end.

(** every container of the batch can be extracted, and its named parts are
    text *)
Definition readable (World Bytes : Type)
  (extractall : string -> World -> string + Tree Bytes)
  (read_text : Bytes -> string + string)
  (template_dir : string) (templates : list string) : Prop :=
  forall t w, In t templates ->
    exists tree,
      extractall (path_join template_dir t) w = inr tree
      /\ forall name b, In name xml_files ->
           lookup_file Bytes name tree = Some b ->
           exists content, read_text b = inr content.

(** a template directory with the first and the third container *)
Definition corpus_readable_listdir (path : string) (w : nat)
  : result (list string) :=
  Ok ["good.docx"; "bare.docx"; "notes.txt"].

Definition corpus_extractall_at (docx_path : string) (w : nat)
  : string + list (string * string) :=
  if String.eqb docx_path "templates/good.docx"
  then corpus_extractall "good.docx" w
  else if String.eqb docx_path "templates/bare.docx"
  then corpus_extractall "bare.docx" w
  else inl "File is not a zip file".




Section ConversionTrace.

Variable World : Type.
Variable run_soffice : string -> string -> World -> result (Z * World).
Variable path_exists : string -> World -> bool.

(** The run of the converter over the documents from the state [w]: every
    document in turn, each in the state its predecessors left, with the
    answer to "did the converter return 0 and does the PDF file exist". *)
Fixpoint conversions (docx_files : list string) (w : World)
  : result (list (string * bool)) :=
  match docx_files with
  | [] => Ok []
  | docx_path :: rest =>
      r <- run_soffice (PyPath.dirname docx_path) docx_path w ;;
      let '(returncode, w') := r in
      let kept :=
        (returncode =? 0) && path_exists (pdf_path_of docx_path) w' in
      trace <- conversions rest w' ;;
      Ok ((docx_path, kept) :: trace)
  end.

(** the PDF paths of the documents of a run that were converted *)
Definition converted (trace : list (string * bool)) : list string :=
  List.map (fun entry => pdf_path_of (fst entry)) (filter snd trace).

End ConversionTrace.

(** * Properties *)

(** ** Strings *)

Section StringFacts.

Local Open Scope nat_scope.

Lemma length_append (s t : string) :
  String.length (s ++ t) = String.length s + String.length t.
Proof.
  induction s as [|c s IH]; simpl; [reflexivity | now rewrite IH].
Qed.

Lemma append_nil_r (s : string) : (s ++ "")%string = s.
Proof.
  induction s as [|c s IH]; simpl; [reflexivity | now rewrite IH].
Qed.

Lemma append_assoc (s t u : string) :
  ((s ++ t) ++ u)%string = (s ++ (t ++ u))%string.
Proof.
  induction s as [|c s IH]; simpl; [reflexivity | now rewrite IH].
Qed.

Lemma truthy_true_iff (s : string) : PyStr.truthy s = true <-> s <> ""%string.
Proof.
  destruct s; simpl; split; intros H; easy.
Qed.

Lemma truthy_false_iff (s : string) : PyStr.truthy s = false <-> s = ""%string.
Proof.
  destruct s; simpl; split; intros H; easy.
Qed.

Lemma replace_from_step (old new : string) (d : ascii) (s : string) :
  PyStr.replace_from 0 old new (String d s)
  = if prefix old (String d s)
    then (new ++ PyStr.replace_from (Nat.pred (String.length old)) old new s)
           %string
    else String d (PyStr.replace_from 0 old new s).
Proof. reflexivity. Qed.

(** A key that does not occur is left alone by [replace]. *)
Lemma replace_from_absent (old new s : string) :
  PyStr.occurs old s = false -> PyStr.replace_from 0 old new s = s.
Proof.
  induction s as [|c s IH]; intros H; [reflexivity|].
  change (prefix old (String c s) || PyStr.occurs old s = false) in H.
  apply orb_false_iff in H as [Hp Ho].
  change (PyStr.replace_from 0 old new (String c s))
    with (if prefix old (String c s)
          then (new ++ PyStr.replace_from (Nat.pred (String.length old))
                         old new s)%string
          else String c (PyStr.replace_from O old new s)).
  rewrite Hp. now rewrite IH.
Qed.

Lemma replace_absent (old new s : string) :
  PyStr.occurs old s = false -> PyStr.replace old new s = s.
Proof.
  intros H. unfold PyStr.replace.
  destruct old as [|c old]; [|now apply replace_from_absent].
  destruct s; simpl in H; discriminate.
Qed.

End StringFacts.

(** ** Formatter *)

(** The recursion of [_digit_words] never goes deeper than two calls: more
    fuel does not change the result. *)
Lemma _digit_words_fuel_stable (k : nat) (n : Z) :
  _digit_words_fuel (S (S k)) n = _digit_words_fuel 2 n.
Proof.
  cbn [_digit_words_fuel].
  destruct (n <? 20); [reflexivity|].
  destruct (n <? 100); [reflexivity|].
  destruct (n mod 100 =? 0); [reflexivity|].
  assert (Hr : 0 <= n mod 100 < 100) by (apply Z.mod_pos_bound; lia).
  destruct (n mod 100 <? 20); [reflexivity|].
  destruct (n mod 100 <? 100) eqn:E; [reflexivity|].
  apply Z.ltb_ge in E. lia.
Qed.

(** Every magnitude segment 1..999 is spelled by a non-empty word group. *)
Lemma _digit_words_segment (x : Z) :
  1 <= x <= 999 -> exists w, _digit_words x = Ok w /\ w <> "".
Proof.
  intros Hx.
  assert (Hall : forallb digit_words_defined (seq 1 999) = true)
    by (vm_compute; reflexivity).
  rewrite forallb_forall in Hall.
  specialize (Hall (Z.to_nat x)).
  unfold digit_words_defined in Hall.
  rewrite Z2Nat.id in Hall by lia.
  destruct (_digit_words x) as [w|e].
  - exists w. split; [reflexivity|]. apply truthy_true_iff. apply Hall.
    apply in_seq. lia.
  - assert (false = true) by (apply Hall; apply in_seq; lia). discriminate.
Qed.

Lemma append_magnitude_zero (words : list string) (name : string) :
  append_magnitude words 0 name = Ok words.
Proof. reflexivity. Qed.

Lemma append_magnitude_segment (words : list string) (x : Z) (name : string) :
  1 <= x <= 999 ->
  exists w, append_magnitude words x name
            = Ok (List.app words [w ++ " " ++ name]).
Proof.
  intros Hx. unfold append_magnitude.
  destruct (x =? 0) eqn:E; [apply Z.eqb_eq in E; lia|].
  destruct (_digit_words_segment x Hx) as [w [Hw _]].
  exists w. now rewrite Hw.
Qed.

(** A joined word list that holds a magnitude word is longer than "ZERO". *)
Lemma join_magnitude_long (words : list string) (w name : string) :
  (4 <= String.length name)%nat ->
  (5 <= String.length
          (PyStr.join " " (List.app words [w ++ " " ++ name])))%nat.
Proof.
  intros Hn.
  induction words as [|x words IH].
  - simpl. rewrite length_append. simpl. lia.
  - change (List.app (x :: words) [w ++ " " ++ name])
      with (x :: List.app words [w ++ " " ++ name]).
    destruct (List.app words [w ++ " " ++ name]) as [|y l] eqn:E.
    + destruct words; discriminate.
    + cbn [PyStr.join]. rewrite !length_append.
      cbn [PyStr.join] in IH. lia.
Qed.

Lemma number_to_words_below_1000 (n : Z) :
  0 <= n < 1000 -> number_to_words n = Ok "ZERO".
Proof.
  intros Hn. unfold number_to_words.
  rewrite (Z.mod_small n 1000000000), (Z.mod_small n 1000000) by lia.
  rewrite !Z.div_small by lia. reflexivity.
Qed.

(** [number_to_words] on the three magnitude segments of its argument. *)
Lemma number_to_words_segments (n : Z) :
  0 <= n <= 999999999999 -> 1000 <= n ->
  exists s, number_to_words n = Ok s /\ (5 <= String.length s)%nat.
Proof.
  intros Hr Hn. unfold number_to_words.
  set (b := n / 1000000000).
  set (m := n mod 1000000000 / 1000000).
  set (t := n mod 1000000 / 1000).
  assert (Hb : 0 <= b <= 999) by (subst b; split;
    [apply Z.div_pos; lia
    | apply Z.lt_succ_r; apply Z.div_lt_upper_bound; lia]).
  assert (Hm1 : 0 <= n mod 1000000000 < 1000000000)
    by (apply Z.mod_pos_bound; lia).
  assert (Hm : 0 <= m <= 999) by (subst m; split;
    [apply Z.div_pos; lia
    | apply Z.lt_succ_r; apply Z.div_lt_upper_bound; lia]).
  assert (Ht1 : 0 <= n mod 1000000 < 1000000)
    by (apply Z.mod_pos_bound; lia).
  assert (Ht : 0 <= t <= 999) by (subst t; split;
    [apply Z.div_pos; lia
    | apply Z.lt_succ_r; apply Z.div_lt_upper_bound; lia]).
  assert (Hnz : b <> 0 \/ m <> 0 \/ t <> 0).
  { destruct (Z.eq_dec b 0) as [Eb|]; [|now left].
    destruct (Z.eq_dec m 0) as [Em|]; [|now right; left].
    right; right. intros Et. subst b m t.
    pose proof (Z.div_mod n 1000000000 ltac:(lia)) as D1.
    pose proof (Z.div_mod (n mod 1000000000) 1000000 ltac:(lia)) as D2.
    pose proof (Z.div_mod (n mod 1000000) 1000 ltac:(lia)) as D3.
    pose proof (Z.mod_pos_bound (n mod 1000000) 1000 ltac:(lia)) as B3.
    pose proof (Z.mod_pos_bound (n mod 1000000000) 1000000 ltac:(lia)) as B2.
    assert (E : n mod 1000000 = (n mod 1000000000) mod 1000000).
    { symmetry.
      apply Z.mod_unique
        with (q := 1000 * (n / 1000000000) + n mod 1000000000 / 1000000);
        lia. }
    lia. }
  assert (Hstep : forall words x name,
             0 <= x <= 999 -> (4 <= String.length name)%nat ->
             (x = 0 /\ append_magnitude words x name = Ok words) \/
             (x <> 0 /\ exists w, append_magnitude words x name
                          = Ok (List.app words [w ++ " " ++ name]))).
  { intros words x name Hx _. destruct (Z.eq_dec x 0) as [->|Hx0].
    - left. split; [reflexivity | apply append_magnitude_zero].
    - right. split; [assumption|]. apply append_magnitude_segment. lia. }
  assert (L7 : (4 <= String.length "BILLION")%nat) by (simpl; lia).
  assert (L7' : (4 <= String.length "MILLION")%nat) by (simpl; lia).
  assert (L8 : (4 <= String.length "THOUSAND")%nat) by (simpl; lia).
  destruct (Hstep [] b "BILLION" Hb L7) as [[Eb ->]|[Nb [wb ->]]];
    cbn [bind];
    match goal with |- context [append_magnitude ?ws m _] =>
      destruct (Hstep ws m "MILLION" Hm L7') as [[Em ->]|[Nm [wm ->]]]
    end;
    cbn [bind];
    match goal with |- context [append_magnitude ?ws t _] =>
      destruct (Hstep ws t "THOUSAND" Ht L8) as [[Et ->]|[Nt [wt ->]]]
    end;
    cbn [bind]; try lia;
    match goal with
    | |- exists s, Ok (match ?l with [] => _ | _ :: _ => PyStr.join _ _ end)
                   = Ok s /\ _ =>
        exists (PyStr.join " " l); split;
        [ now (destruct l eqn:E; [exfalso; revert E; clear;
               repeat (cbn [List.app]; try discriminate);
               match goal with
               | |- List.app ?a _ = [] -> _ => destruct a; discriminate
               end
             | reflexivity ])
        | apply join_magnitude_long; assumption ]
    end.
Qed.

(** ** Claim C3 *)

(** C3, as stated, fails: [number_to_words] is non-empty at 0, which is below
    1000 ("ZERO" is itself a non-empty string). *)
Lemma number_to_words_nonempty_iff_fails :
  ~ (forall n s, 0 <= n <= 999999999999 -> number_to_words n = Ok s ->
       (s <> "" <-> 1000 <= n)).
Proof.
  intros H.
  assert (E : number_to_words 0 = Ok "ZERO") by reflexivity.
  destruct (H 0 "ZERO" ltac:(lia) E) as [H1 _].
  assert (1000 <= 0) by (apply H1; discriminate). lia.
Qed.

(** C3, amended: for every [n] in [0, 999_999_999_999], [number_to_words]
    returns a non-empty string, and that string is "ZERO" if and only if
    [n < 1000]; in particular [number_to_words 0 = "ZERO"]. *)
Theorem number_to_words_zero_iff_below_1000 (n : Z) :
  0 <= n <= 999999999999 ->
  exists s, number_to_words n = Ok s
            /\ s <> ""
            /\ (s = "ZERO" <-> n < 1000)
            /\ number_to_words 0 = Ok "ZERO".
Proof.
  intros Hr. destruct (Z.lt_ge_cases n 1000) as [Hlt|Hge].
  - exists "ZERO". repeat split; try easy.
    apply number_to_words_below_1000. lia.
  - destruct (number_to_words_segments n Hr Hge) as [s [Hs Hl]].
    exists s. repeat split; try assumption.
    + intros ->. simpl in Hl. lia.
    + intros ->. simpl in Hl. lia.
    + lia.
Qed.

Lemma number_to_words_zero_iff_below_1000_witness :
  exists s, number_to_words 100000000 = Ok s
            /\ s <> ""
            /\ (s = "ZERO" <-> 100000000 < 1000)
            /\ number_to_words 0 = Ok "ZERO".
Proof.
  apply (number_to_words_zero_iff_below_1000 100000000). lia.
Defined.

(** ** Claim C5 *)

(** A date accepted by [strptime] is a date of the calendar. *)
Lemma strptime_valid (s : string) (dt : PyDate.datetime) :
  PyDate.strptime s = Ok dt ->
  PyDate.valid_date (PyDate.year dt) (PyDate.month dt) (PyDate.day dt) = true.
Proof.
  unfold PyDate.strptime.
  destruct (PyDate.format_regex s) as [|[[[y m] d] rest] l]; [discriminate|].
  destruct (negb (PyStr.is_empty rest)); [discriminate|].
  destruct (PyDate.valid_date y m d) eqn:E; [|discriminate].
  intros H. injection H as <-. exact E.
Qed.

Lemma days_in_month_le_31 (y m : Z) : PyDate.days_in_month y m <= 31.
Proof.
  unfold PyDate.days_in_month.
  destruct (m =? 2); [destruct (PyDate.is_leap y); lia|].
  destruct ((m =? 4) || (m =? 6) || (m =? 9) || (m =? 11)); lia.
Qed.

Lemma strptime_empty : PyDate.strptime "" = Raise ValueError.
Proof. reflexivity. Qed.

Lemma code_chr (z : Z) : 0 <= z < 256 -> PyStr.code (PyStr.chr z) = z.
Proof.
  intros Hz. unfold PyStr.code, PyStr.chr.
  rewrite nat_ascii_embedding by lia. lia.
Qed.

Lemma digit_char_digit (a : Z) :
  0 <= a <= 9 ->
  PyDate.is_digit (digit_char a) = true /\ PyDate.digit_val (digit_char a) = a.
Proof.
  intros Ha. unfold PyDate.is_digit, PyDate.in_range, PyDate.digit_val,
    digit_char.
  rewrite code_chr by lia. split; [|lia].
  apply andb_true_iff. split; apply Z.leb_le; lia.
Qed.

(** [%Y] reads four digits. *)
Lemma re_Y_digits (a b c d : Z) (rest : string) :
  0 <= a <= 9 -> 0 <= b <= 9 -> 0 <= c <= 9 -> 0 <= d <= 9 ->
  PyDate.re_Y (String (digit_char a) (String (digit_char b)
                (String (digit_char c) (String (digit_char d) rest))))
  = [(1000 * a + 100 * b + 10 * c + d, rest)].
Proof.
  intros Ha Hb Hc Hd. unfold PyDate.re_Y.
  destruct (digit_char_digit a Ha) as [-> ->].
  destruct (digit_char_digit b Hb) as [-> ->].
  destruct (digit_char_digit c Hc) as [-> ->].
  destruct (digit_char_digit d Hd) as [-> ->].
  reflexivity.
Qed.

Lemma year_digits (y : Z) :
  0 <= y <= 9999 ->
  0 <= y / 1000 <= 9 /\ 0 <= y / 100 mod 10 <= 9 /\ 0 <= y / 10 mod 10 <= 9
  /\ 0 <= y mod 10 <= 9
  /\ 1000 * (y / 1000) + 100 * (y / 100 mod 10) + 10 * (y / 10 mod 10)
     + y mod 10 = y.
Proof.
  intros Hy.
  pose proof (Z.div_mod y 10 ltac:(lia)).
  pose proof (Z.div_mod (y / 10) 10 ltac:(lia)).
  pose proof (Z.div_mod (y / 100) 10 ltac:(lia)).
  pose proof (Z.mod_pos_bound y 10 ltac:(lia)).
  pose proof (Z.mod_pos_bound (y / 10) 10 ltac:(lia)).
  pose proof (Z.mod_pos_bound (y / 100) 10 ltac:(lia)).
  assert (E1 : y / 100 = y / 10 / 10)
    by (rewrite Z.div_div by lia; reflexivity).
  assert (E2 : y / 1000 = y / 100 / 10)
    by (rewrite Z.div_div by lia; reflexivity).
  rewrite E1 in *. lia.
Qed.

Lemma in_zrange (lo len : nat) (z : Z) :
  Z.of_nat lo <= z < Z.of_nat lo + Z.of_nat len -> In z (zrange lo len).
Proof.
  intros Hz. unfold zrange.
  replace z with (Z.of_nat (Z.to_nat z)) by lia.
  apply in_map, in_seq. lia.
Qed.

(** [-%m-%d] reads a two-digit month and a two-digit day. *)
Lemma re_md_iso (m d : Z) :
  1 <= m <= 12 -> 1 <= d <= 31 ->
  exists l, PyDate.re_md (iso_month_day m d) = ((m, d), "") :: l.
Proof.
  intros Hm Hd.
  assert (Hall : forallb (fun m => forallb (month_day_parsed m) (zrange 1 31))
                   (zrange 1 12) = true) by (vm_compute; reflexivity).
  rewrite forallb_forall in Hall.
  specialize (Hall m (in_zrange 1 12 m ltac:(lia))).
  rewrite forallb_forall in Hall.
  specialize (Hall d (in_zrange 1 31 d ltac:(lia))).
  unfold month_day_parsed in Hall.
  destruct (PyDate.re_md (iso_month_day m d)) as [|[[m' d'] rest] l];
    [discriminate|].
  destruct rest; [|discriminate].
  apply andb_true_iff in Hall as [Em Ed].
  apply Z.eqb_eq in Em, Ed. subst. now exists l.
Qed.

(** [strptime] reads the ISO text of every date of the calendar. *)
Lemma strptime_iso_date (y m d : Z) :
  PyDate.valid_date y m d = true ->
  PyDate.strptime (iso_date y m d) = Ok (PyDate.mk_datetime y m d).
Proof.
  intros Hv. pose proof Hv as Hv'. unfold PyDate.valid_date in Hv'.
  repeat (apply andb_true_iff in Hv'; destruct Hv' as [Hv' ?]).
  pose proof (days_in_month_le_31 y m).
  destruct (year_digits y ltac:(lia)) as [D1 [D2 [D3 [D4 Ey]]]].
  destruct (re_md_iso m d ltac:(lia) ltac:(lia)) as [l El].
  unfold PyDate.strptime, PyDate.format_regex, iso_date.
  rewrite re_Y_digits by assumption. rewrite Ey.
  cbn [flat_map]. rewrite El. cbn [List.map List.app].
  cbn [PyStr.is_empty negb]. now rewrite Hv.
Qed.

(** C5: [format_date_written] returns "" on the empty input; on an input
    that [strptime] parses as the date [dt], as it does the ISO text
    YYYY-MM-DD of every date of the calendar, it returns
    "<Month> <day><suffix>, <year>", where the suffix is "th" for the days
    11 to 13 and is otherwise decided by the last digit of the day (1 "st",
    2 "nd", 3 "rd", else "th"); on an input that does not parse it returns
    the input unchanged.  It is a total function: no input makes it raise.
    The five examples of the specification evaluate as stated. *)
Theorem format_date_written_spec (date_str : string) :
  (date_str = "" -> format_date_written date_str = "")
  /\ (forall dt, PyDate.strptime date_str = Ok dt ->
        1 <= PyDate.month dt <= 12
        /\ 1 <= PyDate.day dt <= 31
        /\ format_date_written date_str
           = nth (Z.to_nat (PyDate.month dt - 1)) PyDate.month_names ""
             ++ " " ++ PyStr.of_int (PyDate.day dt)
             ++ ordinal_suffix (PyDate.day dt)
             ++ ", " ++ PyDate.strftime_Y dt)
  /\ (forall y m d, PyDate.valid_date y m d = true ->
        date_str = iso_date y m d ->
        PyDate.strptime date_str = Ok (PyDate.mk_datetime y m d))
  /\ (forall e, PyDate.strptime date_str = Raise e ->
        format_date_written date_str = date_str)
  /\ (forall d, 11 <= d <= 13 -> ordinal_suffix d = "th")
  /\ (forall d, ~ 11 <= d <= 13 ->
        (d mod 10 = 1 -> ordinal_suffix d = "st")
        /\ (d mod 10 = 2 -> ordinal_suffix d = "nd")
        /\ (d mod 10 = 3 -> ordinal_suffix d = "rd")
        /\ (d mod 10 <> 1 -> d mod 10 <> 2 -> d mod 10 <> 3 ->
            ordinal_suffix d = "th"))
  /\ format_date_written "1985-06-15" = "June 15th, 1985"
  /\ format_date_written "2025-01-01" = "January 1st, 2025"
  /\ format_date_written "2025-01-11" = "January 11th, 2025"
  /\ format_date_written "" = ""
  /\ format_date_written "not-a-date" = "not-a-date".
Proof.
  split; [intros ->; reflexivity|].
  split.
  { intros dt Hdt.
    pose proof (strptime_valid _ _ Hdt) as Hv.
    unfold PyDate.valid_date in Hv.
    repeat (apply andb_true_iff in Hv; destruct Hv as [Hv ?]).
    pose proof (days_in_month_le_31 (PyDate.year dt) (PyDate.month dt)).
    repeat split; try lia.
    unfold format_date_written.
    destruct date_str as [|c s]; [discriminate|].
    cbn [PyStr.truthy PyStr.is_empty negb]. rewrite Hdt. reflexivity. }
  split; [intros y m d Hv ->; now apply strptime_iso_date|].
  split.
  { intros e He. unfold format_date_written.
    destruct date_str as [|c s]; [reflexivity|].
    cbn [PyStr.truthy PyStr.is_empty negb]. now rewrite He. }
  split.
  { intros d Hd. unfold ordinal_suffix.
    destruct (11 <=? d) eqn:E1; [|apply Z.leb_gt in E1; lia].
    destruct (d <=? 13) eqn:E2; [|apply Z.leb_gt in E2; lia].
    reflexivity. }
  split.
  { intros d Hd. unfold ordinal_suffix.
    assert (E : (11 <=? d) && (d <=? 13) = false).
    { apply andb_false_iff.
      destruct (Z.lt_ge_cases d 11); [left; now apply Z.leb_gt|].
      right. apply Z.leb_gt. lia. }
    rewrite E. repeat split.
    - intros ->. reflexivity.
    - intros ->. reflexivity.
    - intros ->. reflexivity.
    - intros N1 N2 N3.
      destruct (d mod 10 =? 1) eqn:E1; [apply Z.eqb_eq in E1; lia|].
      destruct (d mod 10 =? 2) eqn:E2; [apply Z.eqb_eq in E2; lia|].
      destruct (d mod 10 =? 3) eqn:E3; [apply Z.eqb_eq in E3; lia|].
      reflexivity. }
  repeat split; vm_compute; reflexivity.
Qed.

Lemma format_date_written_spec_witness :
  format_date_written "2024-02-29" = "February 29th, 2024"
  /\ PyDate.strptime "2024-02-29" = Ok (PyDate.mk_datetime 2024 2 29)
  /\ format_date_written "2025-02-29" = "2025-02-29"
  /\ ordinal_suffix 12 = "th"
  /\ ordinal_suffix 22 = "nd".
Proof.
  split; [|split; [|split; [|split]]].
  - destruct (format_date_written_spec "2024-02-29") as [_ [H _]].
    destruct (H (PyDate.mk_datetime 2024 2 29)) as [_ [_ E]];
      [vm_compute; reflexivity|].
    rewrite E. vm_compute. reflexivity.
  - destruct (format_date_written_spec "2024-02-29") as [_ [_ [H _]]].
    apply (H 2024 2 29); vm_compute; reflexivity.
  - destruct (format_date_written_spec "2025-02-29") as [_ [_ [_ [H _]]]].
    apply (H ValueError). vm_compute. reflexivity.
  - destruct (format_date_written_spec "") as [_ [_ [_ [_ [H _]]]]].
    apply H. lia.
  - destruct (format_date_written_spec "") as [_ [_ [_ [_ [_ [H _]]]]]].
    destruct (H 22) as [_ [H2 _]]; [lia|]. apply H2. reflexivity.
Defined.

(** ** Substitution Engine *)

Section SortedItems.

Local Open Scope nat_scope.

Lemma insert_item_perm (x : string * string) (l : list (string * string)) :
  Permutation (insert_item x l) (x :: l).
Proof.
  induction l as [|y l IH]; cbn [insert_item]; [reflexivity|].
  destruct (key_len x <? key_len y); [|reflexivity].
  rewrite IH. apply perm_swap.
Qed.

Lemma sorted_items_perm (m : ReplacementMap) : Permutation (sorted_items m) m.
Proof.
  induction m as [|x m IH]; cbn [sorted_items]; [reflexivity|].
  rewrite insert_item_perm. now apply perm_skip.
Qed.

Lemma insert_item_sorted (x : string * string) (l : list (string * string)) :
  StronglySorted longer_or_equal l ->
  StronglySorted longer_or_equal (insert_item x l).
Proof.
  induction 1 as [|y l Hs IH Hy]; cbn [insert_item].
  - constructor; constructor.
  - destruct (key_len x <? key_len y) eqn:E.
    + apply Nat.ltb_lt in E. constructor; [assumption|].
      eapply Permutation_Forall;
        [apply Permutation_sym, insert_item_perm|].
      constructor; [unfold longer_or_equal; lia | assumption].
    + apply Nat.ltb_ge in E. constructor.
      * now constructor.
      * constructor; [exact E|].
        eapply Forall_impl; [|exact Hy].
        unfold longer_or_equal. intros z Hz. lia.
Qed.

Lemma sorted_items_sorted (m : ReplacementMap) :
  StronglySorted longer_or_equal (sorted_items m).
Proof.
  induction m as [|x m IH]; cbn [sorted_items];
    [constructor | now apply insert_item_sorted].
Qed.

(** Two descending arrangements of the same entries coincide when no two
    keys have the same length. *)
Lemma sorted_unique (l1 l2 : list (string * string)) :
  StronglySorted longer_or_equal l1 ->
  StronglySorted longer_or_equal l2 ->
  Permutation l1 l2 ->
  NoDup (List.map key_len l1) ->
  l1 = l2.
Proof.
  intros H1. revert l2.
  induction H1 as [|a l1 Hs1 IH Ha]; intros l2 H2 HP HN.
  - apply Permutation_nil in HP. now subst.
  - destruct l2 as [|b l2];
      [apply Permutation_sym, Permutation_nil in HP; discriminate|].
    apply StronglySorted_inv in H2 as [Hs2 Hb].
    cbn [List.map] in HN. apply NoDup_cons_iff in HN as [Hna HN].
    assert (Eab : a = b).
    { assert (Ia : In a (b :: l2))
        by (eapply Permutation_in; [exact HP | now left]).
      assert (Ib : In b (a :: l1))
        by (eapply Permutation_in;
            [apply Permutation_sym; exact HP | now left]).
      destruct Ia as [E|Ia]; [now symmetry|].
      destruct Ib as [E|Ib]; [assumption|].
      rewrite Forall_forall in Ha, Hb.
      pose proof (Ha b Ib) as L1. pose proof (Hb a Ia) as L2.
      unfold longer_or_equal in L1, L2.
      exfalso. apply Hna.
      replace (key_len a) with (key_len b) by lia.
      now apply in_map. }
    subst b. f_equal.
    apply IH; [assumption | now apply Permutation_cons_inv in HP | assumption].
Qed.

(** The order of the dict does not matter when the key lengths differ. *)
Lemma sorted_items_order_independent (m m' : ReplacementMap) :
  Permutation m m' ->
  NoDup (List.map key_len m) ->
  sorted_items m = sorted_items m'.
Proof.
  intros HP HN.
  apply sorted_unique; try apply sorted_items_sorted.
  - rewrite !sorted_items_perm. exact HP.
  - eapply Permutation_NoDup; [|exact HN].
    apply Permutation_map, Permutation_sym, sorted_items_perm.
Qed.

(** Sorting commutes with dropping entries. *)
Lemma filter_insert_item (p : string * string -> bool) (x : string * string)
  (l : list (string * string)) :
  StronglySorted longer_or_equal l ->
  filter p (insert_item x l)
  = if p x then insert_item x (filter p l) else filter p l.
Proof.
  induction 1 as [|y l Hs IH Hy]; cbn [insert_item filter].
  - destruct (p x); reflexivity.
  - destruct (key_len x <? key_len y) eqn:E; cbn [filter].
    + rewrite IH. destruct (p y), (p x); cbn [insert_item]; try reflexivity.
      now rewrite E.
    + destruct (p x) eqn:Px; [|reflexivity].
      destruct (p y); cbn [insert_item]; [now rewrite E|].
      apply Nat.ltb_ge in E. clear IH Hs.
      induction l as [|z l IHl]; [reflexivity|].
      apply Forall_cons_iff in Hy as [Hz Hy].
      cbn [filter]. destruct (p z).
      * cbn [insert_item].
        assert (Ez : (key_len x <? key_len z) = false)
          by (apply Nat.ltb_ge; unfold longer_or_equal in Hz; lia).
        now rewrite Ez.
      * now apply IHl.
Qed.

Lemma sorted_items_filter (p : string * string -> bool) (m : ReplacementMap) :
  sorted_items (filter p m) = filter p (sorted_items m).
Proof.
  induction m as [|x m IH]; [reflexivity|].
  cbn [sorted_items filter].
  rewrite filter_insert_item by apply sorted_items_sorted.
  destruct (p x); cbn [sorted_items]; now rewrite IH.
Qed.

End SortedItems.

(** An entry with an empty key or value is a step that does nothing. *)
Lemma replace_step_inactive (result : string) (item : string * string) :
  active item = false -> replace_step result item = result.
Proof.
  destruct item as [old new]. unfold active, replace_step. cbn [fst snd].
  now intros ->.
Qed.

Lemma fold_replace_step_filter (l : list (string * string)) (content : string) :
  fold_left replace_step (filter active l) content
  = fold_left replace_step l content.
Proof.
  revert content. induction l as [|x l IH]; intros content; [reflexivity|].
  cbn [filter]. destruct (active x) eqn:E; cbn [fold_left].
  - apply IH.
  - rewrite IH. now rewrite replace_step_inactive.
Qed.

(** The engine only looks at the active entries. *)
Lemma replace_text_in_file_filter (content : string) (m : ReplacementMap) :
  replace_text_in_file content (filter active m)
  = replace_text_in_file content m.
Proof.
  unfold replace_text_in_file.
  rewrite sorted_items_filter. apply fold_replace_step_filter.
Qed.

(** A step whose key does not occur leaves the text as it is. *)
Lemma replace_step_absent (result : string) (item : string * string) :
  (active item = true -> PyStr.occurs (fst item) result = false) ->
  replace_step result item = result.
Proof.
  intros H. destruct (active item) eqn:E.
  - destruct item as [old new]. unfold replace_step.
    unfold active in E. cbn [fst snd] in *. rewrite E.
    apply replace_absent. now apply H.
  - now apply replace_step_inactive.
Qed.

Lemma fold_replace_step_absent (l : list (string * string)) (content : string) :
  (forall item, In item l -> active item = true ->
                PyStr.occurs (fst item) content = false) ->
  fold_left replace_step l content = content.
Proof.
  induction l as [|x l IH]; intros H; [reflexivity|].
  cbn [fold_left]. rewrite replace_step_absent.
  - apply IH. intros item Hi. apply H. now right.
  - apply H. now left.
Qed.

Lemma replace_text_in_file_absent (content : string) (m : ReplacementMap) :
  (forall item, In item m -> active item = true ->
                PyStr.occurs (fst item) content = false) ->
  replace_text_in_file content m = content.
Proof.
  intros H. apply fold_replace_step_absent.
  intros item Hi. apply H.
  eapply Permutation_in; [apply sorted_items_perm | exact Hi].
Qed.

(** *** Replacement text that shares no character with the keys *)

Section FreshReplacement.

(** [fresh] tells the characters of the replacement text from those of the
    keys. *)
Variable fresh : ascii -> bool.

Variables old new : string.
Hypothesis new_fresh : all_fresh fresh new.
Hypothesis new_nonempty : new <> "".

Lemma none_fresh_tail (d : ascii) (k : string) :
  none_fresh fresh (String d k) -> fresh d = false /\ none_fresh fresh k.
Proof.
  intros H. split.
  - apply H. cbn [PyStr.mem_char]. now rewrite Ascii.eqb_refl.
  - intros c Hc. apply H. cbn [PyStr.mem_char]. rewrite Hc. apply orb_true_r.
Qed.

Lemma prefix_fresh_head (d f : ascii) (k s : string) :
  fresh d = false -> fresh f = true ->
  prefix (String d k) (String f s) = false.
Proof.
  intros Hd Hf. cbn [prefix].
  destruct (ascii_dec d f) as [->|]; [congruence | reflexivity].
Qed.

(** A key cannot start inside fresh text. *)
Lemma occurs_after_fresh (k rest : string) (pre : string) :
  k <> "" -> none_fresh fresh k -> all_fresh fresh pre ->
  PyStr.occurs k (pre ++ rest) = PyStr.occurs k rest.
Proof.
  intros Hk Hn. destruct k as [|d k]; [now elim Hk|].
  apply none_fresh_tail in Hn as [Hd _].
  induction pre as [|f pre IH]; intros Hp; [reflexivity|].
  cbn [append].
  change (PyStr.occurs (String d k) (String f (pre ++ rest)))
    with (prefix (String d k) (String f (pre ++ rest))
          || PyStr.occurs (String d k) (pre ++ rest)).
  rewrite prefix_fresh_head; [cbn [orb]; apply IH | exact Hd |].
  - intros c Hc. apply Hp. cbn [PyStr.mem_char]. rewrite Hc.
    apply orb_true_r.
  - apply Hp. cbn [PyStr.mem_char]. now rewrite Ascii.eqb_refl.
Qed.

(** What the scan writes at the start of its output was at the start of its
    input. *)
Lemma prefix_replace_from (k s : string) :
  none_fresh fresh k ->
  prefix k (PyStr.replace_from 0 old new s) = true -> prefix k s = true.
Proof.
  revert k. induction s as [|c s IH]; intros k Hn H.
  - exact H.
  - destruct k as [|d k]; [reflexivity|].
    apply none_fresh_tail in Hn as [Hd Hn].
    rewrite replace_from_step in H.
    destruct (prefix old (String c s)).
    + destruct new as [|f new']; [now elim new_nonempty|].
      cbn [append] in H. rewrite prefix_fresh_head in H;
        [discriminate | exact Hd |].
      apply new_fresh. cbn [PyStr.mem_char]. now rewrite Ascii.eqb_refl.
    + cbn [prefix] in H |- *.
      destruct (ascii_dec d c); [|discriminate]. now apply IH.
Qed.

Lemma occurs_cons (k : string) (c : ascii) (s : string) :
  PyStr.occurs k (String c s) = prefix k (String c s) || PyStr.occurs k s.
Proof. reflexivity. Qed.

(** The scan creates no occurrence of a key. *)
Lemma occurs_replace_from (k : string) :
  k <> "" -> none_fresh fresh k ->
  forall s skip,
    PyStr.occurs k (PyStr.replace_from skip old new s) = true ->
    PyStr.occurs k s = true.
Proof.
  intros Hk Hn. induction s as [|c s IH]; intros skip H.
  - exact H.
  - rewrite occurs_cons. destruct skip as [|j].
    + rewrite replace_from_step in H.
      destruct (prefix old (String c s)) eqn:E.
      * rewrite occurs_after_fresh in H by assumption.
        rewrite (IH _ H). apply orb_true_r.
      * rewrite occurs_cons in H. apply orb_true_iff in H as [H|H].
        -- assert (P : prefix k (PyStr.replace_from 0 old new (String c s))
                       = true)
             by (rewrite replace_from_step, E; exact H).
           now rewrite (prefix_replace_from k (String c s) Hn P).
        -- rewrite (IH _ H). apply orb_true_r.
    + cbn [PyStr.replace_from] in H. rewrite (IH _ H). apply orb_true_r.
Qed.

(** After the scan the key itself is gone. *)
Lemma occurs_old_replace_from :
  old <> "" -> none_fresh fresh old ->
  forall s skip, PyStr.occurs old (PyStr.replace_from skip old new s) = false.
Proof.
  intros Ho Hn. induction s as [|c s IH]; intros skip.
  - destruct old; [now elim Ho | reflexivity].
  - destruct skip as [|j]; [|cbn [PyStr.replace_from]; apply IH].
    destruct (prefix old (String c s)) eqn:E.
    + rewrite replace_from_step, E.
      rewrite occurs_after_fresh by assumption. apply IH.
    + destruct (PyStr.occurs old (PyStr.replace_from 0 old new (String c s)))
        eqn:O; [|reflexivity].
      rewrite replace_from_step, E, occurs_cons, IH, orb_false_r in O.
      assert (P : prefix old (PyStr.replace_from 0 old new (String c s))
                  = true)
        by (rewrite replace_from_step, E; exact O).
      rewrite (prefix_replace_from old (String c s) Hn P) in E.
      discriminate.
Qed.

End FreshReplacement.

Lemma key_char_of_active (m : ReplacementMap) (k v : string) :
  In (k, v) m -> active (k, v) = true ->
  none_fresh (fun c => negb (key_char m c)) k.
Proof.
  intros Hi Ha c Hc. apply negb_false_iff. unfold key_char.
  apply existsb_exists. exists (k, v). split; [exact Hi|].
  cbn [fst]. now rewrite Ha, Hc.
Qed.

(** When the values share no character with the keys, the keys of the
    entries already applied do not occur in the text any more. *)
Lemma fold_replace_step_consumes (m : ReplacementMap) :
  values_avoid_keys m ->
  forall (l : list (string * string)) (t : string) (done : list string),
    (forall item, In item l -> In item m) ->
    (forall k, In k done ->
               (exists v, In (k, v) m /\ active (k, v) = true)
               /\ PyStr.occurs k t = false) ->
    forall k, (In k done \/ exists v, In (k, v) l /\ active (k, v) = true) ->
              PyStr.occurs k (fold_left replace_step l t) = false.
Proof.
  intros Hm. set (fresh := fun c => negb (key_char m c)).
  induction l as [|[old new] l IH]; intros t done Hl Hdone k Hk.
  - destruct Hk as [Hk|[v [[] _]]]. now apply Hdone.
  - cbn [fold_left].
    assert (Hin : In (old, new) m) by (apply Hl; now left).
    destruct (active (old, new)) eqn:Ha.
    + assert (Hold : old <> "" /\ new <> "").
      { unfold active in Ha. cbn [fst snd] in Ha.
        apply andb_true_iff in Ha as [H1 H2].
        split; now apply truthy_true_iff. }
      destruct Hold as [Hold Hnew].
      assert (Fnew : all_fresh fresh new).
      { intros c Hc. unfold fresh. apply negb_true_iff.
        now apply (Hm old new c). }
      assert (Nold : none_fresh fresh old)
        by (now apply (key_char_of_active m old new)).
      assert (Estep : replace_step t (old, new)
                      = PyStr.replace_from 0 old new t).
      { unfold replace_step. unfold active in Ha. cbn [fst snd] in Ha.
        rewrite Ha. destruct old; [now elim Hold | reflexivity]. }
      apply (IH _ (old :: done)).
      * intros item Hi. apply Hl. now right.
      * intros k' [<-|Hk'].
        -- split; [now exists new|]. rewrite Estep.
           now apply (occurs_old_replace_from fresh).
        -- destruct (Hdone k' Hk') as [[v' [Hv' Ha']] Ho].
           split; [now exists v'|]. rewrite Estep.
           destruct (PyStr.occurs k' (PyStr.replace_from 0 old new t))
             eqn:O; [|reflexivity].
           apply (occurs_replace_from fresh old new Fnew Hnew k') in O.
           ++ congruence.
           ++ unfold active in Ha'. cbn [fst snd] in Ha'.
              apply andb_true_iff in Ha' as [H1 _].
              now apply truthy_true_iff.
           ++ now apply (key_char_of_active m k' v').
      * destruct Hk as [Hk|[v [[E|Hv] Hav]]].
        -- left. now right.
        -- injection E as <- <-. left. now left.
        -- right. now exists v.
    + rewrite replace_step_inactive by exact Ha.
      apply (IH _ done).
      * intros item Hi. apply Hl. now right.
      * exact Hdone.
      * destruct Hk as [Hk|[v [[E|Hv] Hav]]].
        -- now left.
        -- injection E as <- <-. congruence.
        -- right. now exists v.
Qed.

Lemma replace_text_in_file_consumes (m : ReplacementMap) (t k v : string) :
  values_avoid_keys m -> In (k, v) m -> active (k, v) = true ->
  PyStr.occurs k (replace_text_in_file t m) = false.
Proof.
  intros Hm Hi Ha. unfold replace_text_in_file.
  apply (fold_replace_step_consumes m Hm (sorted_items m) t []).
  - intros item Hit.
    eapply Permutation_in; [apply sorted_items_perm | exact Hit].
  - intros k' [].
  - right. exists v. split; [|exact Ha].
    eapply Permutation_in;
      [apply Permutation_sym, sorted_items_perm | exact Hi].
Qed.

(** ** Claim C1 *)

(** C1: the engine applies the entries of the map in descending order of key
    length (after a stable sort of the dict's items), so the outcome does
    not depend on the iteration order of the dict when the key lengths
    differ; the map {"AB":"X", "ABC":"Y"} turns "ABC" into "Y", never "XC",
    in whichever order its two entries are iterated. *)
Theorem replace_text_in_file_longest_first
  (content : string) (m : ReplacementMap) :
  Permutation (sorted_items m) m
  /\ StronglySorted longer_or_equal (sorted_items m)
  /\ replace_text_in_file content m
     = fold_left replace_step (sorted_items m) content
  /\ (forall m', Permutation m m' -> NoDup (List.map key_len m) ->
        replace_text_in_file content m' = replace_text_in_file content m)
  /\ (forall m', Permutation [("AB", "X"); ("ABC", "Y")] m' ->
        replace_text_in_file "ABC" m' = "Y"
        /\ replace_text_in_file "ABC" m' <> "XC").
Proof.
  split; [apply sorted_items_perm|].
  split; [apply sorted_items_sorted|].
  split; [reflexivity|].
  split.
  - intros m' HP HN. unfold replace_text_in_file.
    now rewrite (sorted_items_order_independent m m' HP HN).
  - intros m' HP.
    assert (E : sorted_items [("AB", "X"); ("ABC", "Y")] = sorted_items m').
    { apply sorted_items_order_independent; [exact HP|].
      vm_compute. repeat constructor; simpl; intuition lia. }
    unfold replace_text_in_file. rewrite <- E.
    split; [reflexivity | discriminate].
Qed.

Lemma replace_text_in_file_longest_first_witness :
  replace_text_in_file "ABC" [("ABC", "Y"); ("AB", "X")] = "Y"
  /\ replace_text_in_file "ABC" [("AB", "X"); ("ABC", "Y")] = "Y".
Proof.
  destruct (replace_text_in_file_longest_first "ABC" []) as [_ [_ [_ [_ H]]]].
  split.
  - apply (H [("ABC", "Y"); ("AB", "X")]). apply perm_swap.
  - apply (H [("AB", "X"); ("ABC", "Y")]). apply Permutation_refl.
Defined.

(** ** Claim C4 *)

(** C4, as stated, fails: the map {"a": "aa"} has no value equal to another
    key, yet a second application doubles the text again. *)
Lemma replace_text_in_file_not_idempotent :
  ~ (forall (m : ReplacementMap) (t : string),
       no_value_is_another_key m ->
       replace_text_in_file (replace_text_in_file t m) m
       = replace_text_in_file t m).
Proof.
  intros H.
  specialize (H [("a", "aa")] "a").
  assert (Hm : no_value_is_another_key [("a", "aa")]).
  { intros k v k' v' [E|[]] [E'|[]] Hk.
    injection E as <- <-. injection E' as <- <-. now elim Hk. }
  specialize (H Hm). vm_compute in H. discriminate.
Qed.

(** C4, amended: applying the same map a second time changes nothing
    whenever no key of an active entry (key and value both non-empty) still
    occurs in the text produced by the first application; this is the case
    for every text when no character of the value of an active entry occurs
    in the key of an active entry. *)
Theorem replace_text_in_file_idempotent (t : string) (m : ReplacementMap) :
  ((forall k v, In (k, v) m -> active (k, v) = true ->
                PyStr.occurs k (replace_text_in_file t m) = false) ->
   replace_text_in_file (replace_text_in_file t m) m
   = replace_text_in_file t m)
  /\ (values_avoid_keys m ->
      replace_text_in_file (replace_text_in_file t m) m
      = replace_text_in_file t m).
Proof.
  assert (H1 : (forall k v, In (k, v) m -> active (k, v) = true ->
                  PyStr.occurs k (replace_text_in_file t m) = false) ->
               replace_text_in_file (replace_text_in_file t m) m
               = replace_text_in_file t m).
  { intros H. apply replace_text_in_file_absent.
    intros [k v] Hi Ha. now apply (H k v). }
  split; [exact H1|].
  intros Hm. apply H1. intros k v Hi Ha.
  now apply (replace_text_in_file_consumes m t k v).
Qed.

Lemma replace_text_in_file_idempotent_witness :
  replace_text_in_file
    (replace_text_in_file "ABCAB" [("AB", "X"); ("ABC", "Y")])
    [("AB", "X"); ("ABC", "Y")]
  = replace_text_in_file "ABCAB" [("AB", "X"); ("ABC", "Y")]
  /\ replace_text_in_file
       (replace_text_in_file "a-b" [("a", "1"); ("b", "22"); ("-", "")])
       [("a", "1"); ("b", "22"); ("-", "")]
     = replace_text_in_file "a-b" [("a", "1"); ("b", "22"); ("-", "")].
Proof.
  split.
  - destruct (replace_text_in_file_idempotent "ABCAB"
                [("AB", "X"); ("ABC", "Y")]) as [H _].
    apply H. intros k v [E|[E|[]]] _; injection E as <- <-; vm_compute; reflexivity.
  - destruct (replace_text_in_file_idempotent "a-b"
                [("a", "1"); ("b", "22"); ("-", "")]) as [_ H].
    apply H. intros k v c [E|[E|[E|[]]]] Ha Hc; injection E as <- <-;
      try discriminate Ha;
      cbn [PyStr.mem_char] in Hc; rewrite orb_false_r in Hc;
      repeat (apply orb_true_iff in Hc as [Hc|Hc]);
      apply Ascii.eqb_eq in Hc; subst c; vm_compute; reflexivity.
Defined.

(** ** Claim C7 *)



(** ** Replacement-Map Builder *)

(** what a successful call of [prepare_replacements] has computed on the
    way: the lien amount and its four renderings *)
Ltac prepare_inv H :=
  unfold prepare_replacements in H;
  destruct (PyNum.int _) as [lien_amount|] in H;
    cbn [bind] in H; [|discriminate H];
  destruct (PyNum.format_comma_2f lien_amount) as [lien_2f|] in H;
    cbn [bind] in H; [|discriminate H];
  destruct (number_to_words lien_amount) as [lien_words|] in H;
    cbn [bind] in H; [|discriminate H];
  destruct (PyNum.format_comma_2f (lien_amount * 1000))
    as [lien_1000_2f|] in H;
    cbn [bind] in H; [|discriminate H];
  destruct (number_to_words (lien_amount * 1000))
    as [lien_1000_words|] in H;
    cbn [bind] in H; [|discriminate H];
  injection H as H; symmetry in H.

(** The keys of the map are the fixed placeholder literals. *)
Lemma prepare_replacements_keys (data : CustomerRecord) (m : ReplacementMap) :
  prepare_replacements data = Ok m -> keys m = placeholder_keys.
Proof.
  intros H. prepare_inv H. subst m. reflexivity.
Qed.

Lemma placeholder_keys_nonempty :
  forallb PyStr.truthy placeholder_keys = true.
Proof. vm_compute. reflexivity. Qed.

Lemma distinct_NoDup (l : list string) : distinct l = true -> NoDup l.
Proof.
  induction l as [|x l IH]; cbn [distinct]; intros H; [constructor|].
  apply andb_true_iff in H as [Hx Hl].
  constructor; [|now apply IH].
  intros Hin. apply negb_true_iff in Hx.
  assert (E : string_in l x = true).
  { unfold string_in. apply existsb_exists. exists x.
    split; [assumption | apply String.eqb_refl]. }
  congruence.
Qed.

(** The dict literal names each placeholder once: no entry overwrites
    another. *)
Lemma placeholder_keys_NoDup : NoDup placeholder_keys.
Proof. apply distinct_NoDup. vm_compute. reflexivity. Qed.

Lemma filter_active_nonempty (m : ReplacementMap) (k v : string) :
  In (k, v) (filter active m) -> k <> "" /\ v <> "".
Proof.
  intros H. apply filter_In in H as [_ H].
  unfold active in H. cbn [fst snd] in H.
  apply andb_true_iff in H as [Hk Hv].
  split; now apply truthy_true_iff.
Qed.

(** ** Claim C2 *)

(** C2, as stated, fails: for the record without fields the map returned by
    [prepare_replacements] holds the SSN placeholder with an empty value. *)
Lemma prepare_replacements_keeps_empty_values :
  ~ (forall data m, prepare_replacements data = Ok m ->
       forall k v, In (k, v) m -> k <> "" /\ v <> "").
Proof.
  intros H.
  destruct (prepare_replacements no_fields) as [m|e] eqn:E;
    [|vm_compute in E; discriminate].
  destruct (H no_fields m E "493-74-8357" "") as [_ Hv]; [|now apply Hv].
  vm_compute in E. injection E as <-.
  do 9 right. now left.
Qed.

(** C2, amended: the map returned by [prepare_replacements] has the fixed,
    pairwise distinct, non-empty placeholder literals as its keys; entries
    whose computed value is empty are not removed by the builder.  They are
    dropped by the Substitution Engine: [replace_text_in_file] gives the
    result of the map restricted to the entries with non-empty key and
    value. *)
Theorem prepare_replacements_keys_nonempty
  (data : CustomerRecord) (m : ReplacementMap) :
  prepare_replacements data = Ok m ->
  keys m = placeholder_keys
  /\ NoDup (keys m)
  /\ (forall k v, In (k, v) m -> k <> "")
  /\ (forall content,
        replace_text_in_file content m
        = replace_text_in_file content (filter active m))
  /\ (forall k v, In (k, v) (filter active m) -> k <> "" /\ v <> "").
Proof.
  intros H. pose proof (prepare_replacements_keys data m H) as K.
  split; [exact K|].
  split; [rewrite K; apply placeholder_keys_NoDup|].
  split.
  { intros k v Hi. apply truthy_true_iff.
    pose proof placeholder_keys_nonempty as Hall.
    rewrite forallb_forall in Hall. apply Hall. rewrite <- K.
    unfold keys. apply (in_map fst m (k, v)). exact Hi. }
  split.
  { intros content. symmetry. apply replace_text_in_file_filter. }
  apply filter_active_nonempty.
Qed.

Lemma prepare_replacements_keys_nonempty_witness :
  keys sample_replacements = placeholder_keys
  /\ In ("493-74-8357", "123-45-6789") (filter active sample_replacements).
Proof.
  split.
  - apply (prepare_replacements_keys_nonempty sample_data sample_replacements).
    vm_compute. reflexivity.
  - vm_compute. do 9 right. now left.
Defined.

(** ** Claim C6 *)

(** C6, as stated, fails: for the document date "2025-01-15" the value under
    the key "4/7/2025" is "2025-01-15" itself, which is not in
    slash-separated form. *)
Lemma prepare_replacements_slash_date_fails :
  ~ (forall data date m,
       documentDate data = Some date -> date <> "" ->
       prepare_replacements data = Ok m ->
       exists v, lookup "4/7/2025" m = Some v /\ is_slash_numeric v = true).
Proof.
  intros H.
  destruct (prepare_replacements sample_data) as [m|e] eqn:E;
    [|vm_compute in E; discriminate].
  destruct (H sample_data "2025-01-15" m eq_refl ltac:(discriminate) E)
    as [v [Hl Hv]].
  vm_compute in E. injection E as <-.
  vm_compute in Hl. injection Hl as <-.
  vm_compute in Hv. discriminate.
Qed.

(** C6, amended: for every customer record the map built by
    [prepare_replacements] maps the legacy slash-format literal "4/7/2025"
    to the document date exactly as the record gives it (the empty string
    when it is absent); the date is not rendered again with slashes. *)
Theorem prepare_replacements_slash_key_verbatim
  (data : CustomerRecord) (m : ReplacementMap) :
  prepare_replacements data = Ok m ->
  lookup "4/7/2025" m = Some (get (documentDate data) "").
Proof.
  intros H. prepare_inv H. subst m.
  cbn [lookup String.eqb Ascii.eqb Bool.eqb].
  destruct (get (documentDate data) ""); reflexivity.
Qed.

Lemma prepare_replacements_slash_key_verbatim_witness :
  lookup "4/7/2025" sample_replacements = Some "2025-01-15".
Proof.
  apply (prepare_replacements_slash_key_verbatim sample_data
           sample_replacements).
  vm_compute. reflexivity.
Defined.

(** ** Claim C9 *)





(** ** Package Orchestrator *)

Section OrchestratorFacts.

Variable World : Type.
Variable makedirs : string -> World -> result World.
Variable listdir : string -> World -> result (list string).
Variable process_docx_xml :
  string -> ReplacementMap -> string -> World -> World * option string.

Lemma outcomes_templates (template_dir out_dir : string)
  (customer_data : CustomerRecord) (replacements : ReplacementMap)
  (templates : list string) (w : World) :
  List.map template
    (outcomes World process_docx_xml template_dir out_dir customer_data
       replacements templates w)
  = templates.
Proof.
  revert w. induction templates as [|t rest IH]; intros w; [reflexivity|].
  cbn [outcomes].
  destruct (process_docx_xml _ _ _ w) as [w' r].
  cbn [List.map template]. now rewrite IH.
Qed.

Lemma succeeded_failed_length (trace : list outcome) :
  (List.length (succeeded trace) + List.length (failed trace)
   = List.length trace)%nat.
Proof.
  induction trace as [|o trace IH]; [reflexivity|].
  unfold succeeded, failed in *. cbn [flat_map].
  rewrite !length_app.
  destruct (failure o); cbn [List.length]; lia.
Qed.

(** The loop appends, for every template, either its output path to the
    generated files or an entry to the errors, and goes on. *)
Lemma process_templates_outcomes (template_dir out_dir : string)
  (customer_data : CustomerRecord) (replacements : ReplacementMap)
  (templates : list string) (generated_files : list string)
  (errs : list (string * string)) (w : World) :
  let trace := outcomes World process_docx_xml template_dir out_dir
                 customer_data replacements templates w in
  exists w',
    process_templates World process_docx_xml template_dir out_dir
      customer_data replacements templates generated_files errs w
    = (List.app generated_files (succeeded trace),
       List.app errs (failed trace), w').
Proof.
  revert generated_files errs w.
  induction templates as [|t rest IH]; intros generated_files errs w.
  - exists w. cbn. now rewrite !app_nil_r.
  - cbn [outcomes process_templates].
    destruct (process_docx_xml _ _ _ w) as [w' [msg|]].
    + destruct (IH generated_files (List.app errs [(t, msg)]) w')
        as [w'' E].
      exists w''. cbn zeta in E. rewrite E.
      unfold succeeded, failed. cbn [flat_map failure template List.app].
      now rewrite <- app_assoc.
    + destruct (IH (List.app generated_files
                      [path_join out_dir (output_name customer_data t)])
                  errs w') as [w'' E].
      exists w''. cbn zeta in E. rewrite E.
      unfold succeeded, failed. cbn [flat_map failure out_path List.app].
      now rewrite <- app_assoc.
Qed.

(** ** Claim C8 *)

(** C8: once the output directory exists, the replacement map is built and
    the templates are listed, [generate_package] returns a result and does
    not raise, whatever [process_docx_xml] does on the templates.  The batch
    goes through every template, in sorted order; each failure is recorded
    as an error entry made of the template name and the message, each
    success as a generated file, so the two lists together account for
    every template.  With five templates of which exactly one fails, the
    result lists 4 generated files and 1 error entry. *)
Theorem generate_package_continues
  (template_dir out_dir : string) (customer_data : CustomerRecord)
  (w w1 : World) (replacements : ReplacementMap) (names : list string) :
  makedirs out_dir w = Ok w1 ->
  prepare_replacements customer_data = Ok replacements ->
  listdir template_dir w1 = Ok names ->
  let templates :=
    sort_names (filter (fun f => PyStr.endswith f ".docx") names) in
  let trace := outcomes World process_docx_xml template_dir out_dir
                 customer_data replacements templates w1 in
  exists r w',
    generate_package World makedirs listdir process_docx_xml
      template_dir customer_data out_dir w = Ok (r, w')
    /\ List.map template trace = templates
    /\ generated r = succeeded trace
    /\ errors r = failed trace
    /\ output_dir r = out_dir
    /\ (List.length (generated r) + List.length (errors r)
        = List.length templates)%nat
    /\ (List.length templates = 5%nat ->
        List.length (failed trace) = 1%nat ->
        List.length (generated r) = 4%nat
        /\ List.length (errors r) = 1%nat).
Proof.
  intros Hmk Hprep Hls templates trace.
  unfold generate_package. rewrite Hmk. cbn [bind].
  rewrite Hprep. cbn [bind]. rewrite Hls. cbn [bind].
  destruct (process_templates_outcomes template_dir out_dir customer_data
              replacements templates [] [] w1) as [w' E].
  fold templates. cbn zeta in E. rewrite E. fold trace.
  exists (mk_result (succeeded trace) (failed trace) out_dir), w'.
  pose proof (outcomes_templates template_dir out_dir customer_data
                replacements templates w1) as Ht.
  fold trace in Ht.
  pose proof (succeeded_failed_length trace) as Hlen.
  assert (Hn : List.length trace = List.length templates)
    by (rewrite <- Ht; now rewrite length_map).
  cbn [generated errors output_dir List.app].
  repeat split; try assumption; try reflexivity; lia.
Qed.

End OrchestratorFacts.

Lemma generate_package_continues_witness :
  exists r w',
    generate_package nat corpus_makedirs corpus_listdir corpus_process
      "templates" sample_data "out" O = Ok (r, w')
    /\ generated r = ["out/01_Cover_Smith.docx"; "out/02_Security_Smith.docx";
                      "out/04_Affidavit_Smith.docx"; "out/05_Notice_Smith.docx"]
    /\ errors r = [("03_Copyright_TKC.docx", "File is not a zip file")].
Proof.
  destruct (generate_package_continues nat corpus_makedirs corpus_listdir
              corpus_process "templates" "out" sample_data O O
              sample_replacements
              ["05_Notice_TKC.docx"; "02_Security_JAD.docx"; "notes.txt";
               "01_Cover_TKC.docx"; "04_Affidavit_TKC.docx";
               "03_Copyright_TKC.docx"])
    as [r [w' [E [_ [Hg [He _]]]]]];
    try (vm_compute; reflexivity).
  exists r, w'. split; [exact E|]. split.
  - rewrite Hg. vm_compute. reflexivity.
  - rewrite He. vm_compute. reflexivity.
Defined.

(** ** Output file names *)

Section ReplaceFacts.

(** the key [String c old'] starts with the character [c] *)
Variables (c : ascii) (old' new : string).

Lemma mem_char_append (d : ascii) (s t : string) :
  PyStr.mem_char d (s ++ t) = PyStr.mem_char d s || PyStr.mem_char d t.
Proof.
  induction s as [|e s IH]; [reflexivity|].
  cbn [append PyStr.mem_char]. rewrite IH. apply orb_assoc.
Qed.

Lemma prefix_other_char (d : ascii) (s : string) :
  Ascii.eqb c d = false -> prefix (String c old') (String d s) = false.
Proof.
  intros H. cbn [prefix].
  destruct (ascii_dec c d) as [->|]; [|reflexivity].
  now rewrite Ascii.eqb_refl in H.
Qed.

Lemma prefix_append (s t : string) : prefix s (s ++ t) = true.
Proof.
  induction s as [|d s IH]; [now destruct t|].
  cbn [append prefix]. now destruct (ascii_dec d d).
Qed.

Lemma replace_nonempty_key (s : string) :
  PyStr.replace (String c old') new s
  = PyStr.replace_from 0 (String c old') new s.
Proof. reflexivity. Qed.

(** A key whose first character is absent from the text does not occur. *)
Lemma occurs_first_char_absent (s : string) :
  PyStr.mem_char c s = false -> PyStr.occurs (String c old') s = false.
Proof.
  induction s as [|d s IH]; intros H; [reflexivity|].
  cbn [PyStr.mem_char] in H. apply orb_false_iff in H as [Hd Hs].
  change (prefix (String c old') (String d s)
          || PyStr.occurs (String c old') s = false).
  rewrite (prefix_other_char d s Hd). now apply IH.
Qed.

Lemma replace_first_char_absent (s : string) :
  PyStr.mem_char c s = false -> PyStr.replace (String c old') new s = s.
Proof.
  intros H. apply replace_absent. now apply occurs_first_char_absent.
Qed.

(** The scan copies a stretch of text free of the key's first character. *)
Lemma replace_from_copy (p rest : string) :
  PyStr.mem_char c p = false ->
  PyStr.replace_from 0 (String c old') new (p ++ rest)
  = p ++ PyStr.replace_from 0 (String c old') new rest.
Proof.
  induction p as [|d p IH]; intros H; [reflexivity|].
  cbn [PyStr.mem_char] in H. apply orb_false_iff in H as [Hd Hp].
  cbn [append]. rewrite replace_from_step, (prefix_other_char d _ Hd).
  now rewrite IH.
Qed.

Lemma replace_from_skip (old t rest : string) :
  PyStr.replace_from (String.length t) old new (t ++ rest)
  = PyStr.replace_from 0 old new rest.
Proof.
  induction t as [|d t IH]; [reflexivity|].
  cbn [String.length append PyStr.replace_from]. exact IH.
Qed.

(** At an occurrence of the key the scan writes the replacement and goes on
    after the occurrence. *)
Lemma replace_from_match (rest : string) :
  PyStr.replace_from 0 (String c old') new (String c old' ++ rest)
  = new ++ PyStr.replace_from 0 (String c old') new rest.
Proof.
  change (String c old' ++ rest) with (String c (old' ++ rest)).
  rewrite replace_from_step.
  change (String c (old' ++ rest)) with (String c old' ++ rest).
  rewrite prefix_append. cbn [String.length Nat.pred].
  now rewrite replace_from_skip.
Qed.

(** One occurrence of the key, in a text otherwise free of the key's first
    character. *)
Lemma replace_single (p rest : string) :
  PyStr.mem_char c p = false -> PyStr.mem_char c rest = false ->
  PyStr.replace (String c old') new (p ++ String c old' ++ rest)
  = p ++ new ++ rest.
Proof.
  intros Hp Hr. rewrite replace_nonempty_key.
  rewrite (replace_from_copy p _ Hp), replace_from_match.
  rewrite <- replace_nonempty_key.
  now rewrite (replace_first_char_absent rest Hr).
Qed.


End ReplaceFacts.

(** ** Claim C10 *)



(** * Further properties of the code *)

(** ** Formatter: bounds *)

Lemma _digit_words_in_range (n : Z) :
  -20 <= n < 2000 -> exists w, _digit_words n = Ok w.
Proof.
  intros Hn.
  assert (Hall : forallb digit_words_returns (seq 0 2020) = true)
    by (vm_compute; reflexivity).
  rewrite forallb_forall in Hall.
  specialize (Hall (Z.to_nat (n + 20))).
  unfold digit_words_returns in Hall.
  replace (Z.of_nat (Z.to_nat (n + 20)) - 20) with n in Hall by lia.
  destruct (_digit_words n) as [w|e]; [now exists w|].
  assert (false = true) by (apply Hall; apply in_seq; lia). discriminate.
Qed.

Lemma py_index_ones_out_of_range (i : Z) :
  i < -20 \/ 20 <= i -> py_index ones i = Raise IndexError.
Proof.
  intros Hi. unfold py_index.
  change (Z.of_nat (List.length ones)) with 20.
  destruct (i <? 0) eqn:E.
  - apply Z.ltb_lt in E.
    assert (E1 : (0 <=? i + 20) = false) by (apply Z.leb_gt; lia).
    now rewrite E1.
  - apply Z.ltb_ge in E.
    assert (E1 : (i <? 20) = false) by (apply Z.ltb_ge; lia).
    rewrite E1. now rewrite andb_false_r.
Qed.

Lemma _digit_words_out_of_range (n : Z) :
  n < -20 \/ 2000 <= n -> _digit_words n = Raise IndexError.
Proof.
  intros Hn. unfold _digit_words. cbn [_digit_words_fuel].
  destruct Hn as [Hn|Hn].
  - assert (E : (n <? 20) = true) by (apply Z.ltb_lt; lia).
    rewrite E. apply py_index_ones_out_of_range. now left.
  - assert (E1 : (n <? 20) = false) by (apply Z.ltb_ge; lia).
    assert (E2 : (n <? 100) = false) by (apply Z.ltb_ge; lia).
    rewrite E1, E2.
    rewrite py_index_ones_out_of_range; [reflexivity|].
    right. apply Z.div_le_lower_bound; lia.
Qed.

(** X1: [_digit_words] returns a string exactly for the arguments from -20
    to 1999: the negative ones index the table of the ones from its end, and
    every other argument leaves the table and raises [IndexError]. *)
Theorem _digit_words_defined_iff (n : Z) :
  (-20 <= n < 2000 -> exists w, _digit_words n = Ok w)
  /\ (n < -20 \/ 2000 <= n -> _digit_words n = Raise IndexError).
Proof.
  split; [apply _digit_words_in_range | apply _digit_words_out_of_range].
Qed.

Lemma _digit_words_defined_iff_witness :
  (exists w, _digit_words (-1) = Ok w)
  /\ _digit_words 2000 = Raise IndexError
  /\ _digit_words (-21) = Raise IndexError.
Proof.
  split; [|split].
  - apply (_digit_words_defined_iff (-1)). lia.
  - apply (_digit_words_defined_iff 2000). right. lia.
  - apply (_digit_words_defined_iff (-21)). left. lia.
Defined.

(** the three magnitude segments of [number_to_words], in terms of the
    thousands [n / 1000] *)
Lemma magnitude_segments (n : Z) :
  n / 1000000000 = n / 1000 / 1000000
  /\ n mod 1000000000 / 1000000 = (n / 1000 / 1000) mod 1000
  /\ n mod 1000000 / 1000 = (n / 1000) mod 1000.
Proof.
  split; [|split].
  - rewrite Z.div_div by lia. reflexivity.
  - change 1000000000 with (1000000 * 1000).
    rewrite Z.rem_mul_r by lia.
    rewrite (Z.div_div n 1000 1000) by lia. change (1000 * 1000) with 1000000.
    pose proof (Z.mod_pos_bound n 1000000 ltac:(lia)).
    symmetry. apply Z.div_unique with (r := n mod 1000000); lia.
  - change 1000000 with (1000 * 1000) at 1.
    rewrite Z.rem_mul_r by lia.
    pose proof (Z.mod_pos_bound n 1000 ltac:(lia)).
    symmetry. apply Z.div_unique with (r := n mod 1000); lia.
Qed.

Lemma magnitude_bounds (n : Z) :
  0 <= n mod 1000000000 / 1000000 <= 999
  /\ 0 <= n mod 1000000 / 1000 <= 999.
Proof.
  destruct (magnitude_segments n) as [_ [-> ->]].
  pose proof (Z.mod_pos_bound (n / 1000 / 1000) 1000 ltac:(lia)).
  pose proof (Z.mod_pos_bound (n / 1000) 1000 ltac:(lia)).
  lia.
Qed.

Lemma append_magnitude_returns (words : list string) (x : Z) (name : string) :
  -20 <= x < 2000 -> exists ws, append_magnitude words x name = Ok ws.
Proof.
  intros Hx. unfold append_magnitude.
  destruct (x =? 0); [now exists words|].
  destruct (_digit_words_in_range x Hx) as [w ->].
  cbn [bind]. eexists. reflexivity.
Qed.

Lemma number_to_words_in_range (n : Z) :
  -20000000000 <= n < 2000000000000 -> exists s, number_to_words n = Ok s.
Proof.
  intros Hn. unfold number_to_words.
  assert (Hb : -20 <= n / 1000000000 < 2000).
  { split; [apply Z.div_le_lower_bound; lia
           | apply Z.div_lt_upper_bound; lia]. }
  destruct (magnitude_bounds n) as [Hm Ht].
  assert (Hm' : -20 <= n mod 1000000000 / 1000000 < 2000) by lia.
  assert (Ht' : -20 <= n mod 1000000 / 1000 < 2000) by lia.
  destruct (append_magnitude_returns [] _ "BILLION" Hb) as [w1 ->].
  cbn [bind].
  destruct (append_magnitude_returns w1 _ "MILLION" Hm') as [w2 ->].
  cbn [bind].
  destruct (append_magnitude_returns w2 _ "THOUSAND" Ht') as [w3 ->].
  cbn [bind]. eexists. reflexivity.
Qed.

Lemma number_to_words_out_of_range (n : Z) :
  n < -20000000000 \/ 2000000000000 <= n ->
  number_to_words n = Raise IndexError.
Proof.
  intros Hn. unfold number_to_words. cbv zeta. unfold append_magnitude at 1.
  assert (Hb : n / 1000000000 < -20 \/ 2000 <= n / 1000000000).
  { destruct Hn as [Hn|Hn].
    - left. apply Z.div_lt_upper_bound; lia.
    - right. apply Z.div_le_lower_bound; lia. }
  assert (E : (n / 1000000000 =? 0) = false) by (apply Z.eqb_neq; lia).
  rewrite E, (_digit_words_out_of_range _ Hb). reflexivity.
Qed.

(** X2: [number_to_words] returns exactly for the amounts from
    -20_000_000_000 up to, and not including, 2_000_000_000_000; on every
    other amount the billions leave the table of [_digit_words] and the call
    raises [IndexError]. *)
Theorem number_to_words_defined_iff (n : Z) :
  (-20000000000 <= n < 2000000000000 -> exists s, number_to_words n = Ok s)
  /\ (n < -20000000000 \/ 2000000000000 <= n ->
      number_to_words n = Raise IndexError).
Proof.
  split; [apply number_to_words_in_range | apply number_to_words_out_of_range].
Qed.

Lemma number_to_words_defined_iff_witness :
  (exists s, number_to_words 1999999999999 = Ok s)
  /\ number_to_words 2000000000000 = Raise IndexError.
Proof.
  split.
  - apply (number_to_words_defined_iff 1999999999999). lia.
  - apply (number_to_words_defined_iff 2000000000000). right. lia.
Defined.

(** X3: the last three digits of the amount never reach the words:
    [number_to_words] gives the same result, or the same exception, on [n]
    and on [n] rounded down to a multiple of 1000. *)
Theorem number_to_words_ignores_remainder (n : Z) :
  number_to_words n = number_to_words (n - n mod 1000).
Proof.
  assert (E : (n - n mod 1000) / 1000 = n / 1000).
  { pose proof (Z.div_mod n 1000 ltac:(lia)).
    replace (n - n mod 1000) with (n / 1000 * 1000) by lia.
    apply Z.div_mul. lia. }
  unfold number_to_words.
  destruct (magnitude_segments n) as [-> [-> ->]].
  destruct (magnitude_segments (n - n mod 1000)) as [-> [-> ->]].
  now rewrite E.
Qed.

(** X4: a negative amount is not refused.  From -1_000_000_000 to -1 the
    billions are -1, which [_digit_words] reads as the last entry of its
    table: the words start with NINETEEN BILLION. *)
Theorem number_to_words_negative (n : Z) :
  -1000000000 <= n < 0 ->
  exists rest, number_to_words n = Ok ("NINETEEN BILLION" ++ rest).
Proof.
  intros Hn. unfold number_to_words.
  assert (Eb : n / 1000000000 = -1).
  { symmetry. apply Z.div_unique with (r := n + 1000000000); lia. }
  rewrite Eb.
  change (append_magnitude [] (-1) "BILLION") with (Ok ["NINETEEN BILLION"]).
  cbn [bind].
  destruct (magnitude_bounds n) as [Hm Ht].
  assert (Hm' : -20 <= n mod 1000000000 / 1000000 < 2000) by lia.
  assert (Ht' : -20 <= n mod 1000000 / 1000 < 2000) by lia.
  destruct (append_magnitude_returns ["NINETEEN BILLION"] _ "MILLION" Hm')
    as [w2 E2].
  rewrite E2. cbn [bind].
  destruct (append_magnitude_returns w2 _ "THOUSAND" Ht') as [w3 E3].
  rewrite E3. cbn [bind].
  assert (H2 : exists l2, w2 = "NINETEEN BILLION" :: l2).
  { unfold append_magnitude in E2.
    destruct (_ =? 0); [injection E2 as <-; now exists []|].
    destruct (_digit_words _); [|discriminate].
    cbn [bind] in E2. injection E2 as <-. eexists. reflexivity. }
  destruct H2 as [l2 ->].
  assert (H3 : exists l3, w3 = "NINETEEN BILLION" :: l3).
  { unfold append_magnitude in E3.
    destruct (_ =? 0); [injection E3 as <-; now exists l2|].
    destruct (_digit_words _); [|discriminate].
    cbn [bind] in E3. injection E3 as <-. eexists. reflexivity. }
  destruct H3 as [l3 ->].
  destruct l3 as [|x l3]; cbn [PyStr.join].
  - exists "". reflexivity.
  - eexists. reflexivity.
Qed.

Lemma number_to_words_negative_witness :
  exists rest, number_to_words (-5) = Ok ("NINETEEN BILLION" ++ rest).
Proof.
  apply (number_to_words_negative (-5)). lia.
Defined.

(** ** Formatter: dates *)

Lemma month_name_starts_with_letter (m : Z) :
  1 <= m <= 12 ->
  exists c r, nth (Z.to_nat (m - 1)) PyDate.month_names "" = String c r
              /\ PyDate.is_digit c = false.
Proof.
  intros Hm.
  assert (H : m = 1 \/ m = 2 \/ m = 3 \/ m = 4 \/ m = 5 \/ m = 6 \/ m = 7
              \/ m = 8 \/ m = 9 \/ m = 10 \/ m = 11 \/ m = 12) by lia.
  repeat (destruct H as [->|H]; [eexists; eexists; split; reflexivity|]).
  subst m. eexists; eexists; split; reflexivity.
Qed.

(** No text that starts with something else than a digit is a date. *)
Lemma strptime_not_a_digit (c : ascii) (r : string) :
  PyDate.is_digit c = false -> PyDate.strptime (String c r) = Raise ValueError.
Proof.
  intros H. unfold PyDate.strptime, PyDate.format_regex, PyDate.re_Y.
  destruct r as [|c1 [|c2 [|c3 r]]]; try reflexivity.
  rewrite H. reflexivity.
Qed.

Lemma format_date_written_unparsed (s : string) (e : PyError) :
  PyDate.strptime s = Raise e -> format_date_written s = s.
Proof.
  intros H. unfold format_date_written.
  destruct s; [reflexivity|].
  cbn [PyStr.truthy PyStr.is_empty negb]. now rewrite H.
Qed.

(** X5: [format_date_written] leaves its own output alone: a written date
    does not parse as a date again, so formatting twice gives the same text
    as formatting once. *)
Theorem format_date_written_idempotent (date_str : string) :
  format_date_written (format_date_written date_str)
  = format_date_written date_str.
Proof.
  destruct (PyDate.strptime date_str) as [dt|e] eqn:E.
  - destruct date_str as [|c0 s0]; [reflexivity|].
    pose proof (strptime_valid _ _ E) as Hv.
    unfold PyDate.valid_date in Hv.
    repeat (apply andb_true_iff in Hv; destruct Hv as [Hv ?]).
    destruct (month_name_starts_with_letter (PyDate.month dt) ltac:(lia))
      as [c [r [Hname Hc]]].
    assert (Eout : exists rest,
               format_date_written (String c0 s0) = String c rest).
    { unfold format_date_written.
      cbn [PyStr.truthy PyStr.is_empty negb]. rewrite E.
      unfold PyDate.strftime_B. rewrite Hname. cbn [append].
      eexists. reflexivity. }
    destruct Eout as [rest ->].
    apply (format_date_written_unparsed _ ValueError).
    now apply strptime_not_a_digit.
  - rewrite (format_date_written_unparsed _ e E).
    apply (format_date_written_unparsed _ e E).
Qed.

(** X6: a well-formed text YYYY-MM-DD that names no date of the calendar
    (the year 0000, a day after the end of the month, 29 February outside a
    leap year) is returned as it is. *)
Theorem format_date_written_rejects_impossible_date (y m d : Z) :
  0 <= y <= 9999 -> 1 <= m <= 12 -> 1 <= d <= 31 ->
  PyDate.valid_date y m d = false ->
  format_date_written (iso_date y m d) = iso_date y m d.
Proof.
  intros Hy Hm Hd Hv.
  apply (format_date_written_unparsed _ ValueError).
  destruct (year_digits y Hy) as [D1 [D2 [D3 [D4 Ey]]]].
  destruct (re_md_iso m d Hm Hd) as [l El].
  unfold PyDate.strptime, PyDate.format_regex, iso_date.
  rewrite re_Y_digits by assumption. rewrite Ey.
  cbn [flat_map]. rewrite El. cbn [List.map List.app].
  cbn [PyStr.is_empty negb]. now rewrite Hv.
Qed.

Lemma format_date_written_rejects_impossible_date_witness :
  format_date_written "2025-02-29" = "2025-02-29"
  /\ format_date_written "0000-01-01" = "0000-01-01"
  /\ format_date_written "2025-04-31" = "2025-04-31".
Proof.
  split; [|split].
  - apply (format_date_written_rejects_impossible_date 2025 2 29);
      try lia; reflexivity.
  - apply (format_date_written_rejects_impossible_date 0 1 1);
      try lia; reflexivity.
  - apply (format_date_written_rejects_impossible_date 2025 4 31);
      try lia; reflexivity.
Defined.

(** ** Replacement-Map Builder: the lien amount and the SSN *)

(** Integers below 2^53 in magnitude are floats: the conversion is exact. *)
Lemma to_float_exact (n : Z) :
  Z.abs n < 2 ^ 53 -> PyNum.to_float n = Ok n.
Proof.
  intros H. unfold PyNum.to_float. cbv zeta.
  assert (E1 : (Z.abs n <? 2 ^ 53) = true) by (now apply Z.ltb_lt).
  rewrite E1.
  assert (E2 : (2 ^ 1024 <=? Z.abs n) = false).
  { apply Z.leb_gt. eapply Z.lt_trans; [exact H|].
    apply Z.pow_lt_mono_r; lia. }
  rewrite E2. f_equal. rewrite Z.mul_comm. apply Z.abs_sgn.
Qed.

Lemma format_comma_2f_returns (n : Z) :
  Z.abs n < 2 ^ 53 -> exists s, PyNum.format_comma_2f n = Ok s.
Proof.
  intros H. unfold PyNum.format_comma_2f.
  rewrite (to_float_exact n H). cbn [bind]. eexists. reflexivity.
Qed.

Lemma pow_2_53 : 2 ^ 53 = 9007199254740992.
Proof. reflexivity. Qed.

(** X7: [prepare_replacements] returns a map exactly when the lien amount
    that [int()] reads lies between -20_000_000 and 1_999_999_999.  Outside
    this range the words of the amount, or of the amount times 1000, leave
    the tables of the Formatter (or the amount is too large for a float) and
    the call raises: a lien of two billion or more cannot be processed. *)
Theorem prepare_replacements_lien_range (data : CustomerRecord) (n : Z) :
  PyNum.int (get (lienAmount data) (PyNum.VInt default_lien_amount)) = Ok n ->
  (-20000000 <= n < 2000000000 ->
   exists m, prepare_replacements data = Ok m)
  /\ (n < -20000000 \/ 2000000000 <= n ->
      exists e, prepare_replacements data = Raise e).
Proof.
  intros Hint. unfold prepare_replacements. rewrite Hint. cbn [bind].
  split.
  - intros Hn.
    destruct (format_comma_2f_returns n) as [s1 ->];
      [rewrite pow_2_53; lia|].
    cbn [bind].
    destruct (number_to_words_in_range n) as [s2 ->]; [lia|].
    cbn [bind].
    destruct (format_comma_2f_returns (n * 1000)) as [s3 ->];
      [rewrite pow_2_53; lia|].
    cbn [bind].
    destruct (number_to_words_in_range (n * 1000)) as [s4 ->]; [lia|].
    cbn [bind]. eexists. reflexivity.
  - intros Hn.
    destruct (PyNum.format_comma_2f n) as [s1|e1];
      cbn [bind]; [|now exists e1].
    destruct (number_to_words n) as [s2|e2]; cbn [bind]; [|now exists e2].
    destruct (PyNum.format_comma_2f (n * 1000)) as [s3|e3];
      cbn [bind]; [|now exists e3].
    rewrite (number_to_words_out_of_range (n * 1000)) by lia.
    cbn [bind]. now exists IndexError.
Qed.

Lemma prepare_replacements_lien_range_witness :
  (exists m, prepare_replacements sample_data = Ok m)
  /\ (exists e,
        prepare_replacements
          (mk_customer None None None None (Some (PyNum.VInt 2000000000))
             None None None None None None None None None None None None
             None) = Raise e).
Proof.
  split.
  - apply (prepare_replacements_lien_range sample_data 100000000);
      [reflexivity | lia].
  - apply (prepare_replacements_lien_range _ 2000000000);
      [reflexivity | right; lia].
Defined.

(** Replacing a one-character key by nothing removes the character. *)
Lemma replace_char_by_nothing (c : ascii) (s : string) :
  PyStr.mem_char c (PyStr.replace (String c "") "" s) = false.
Proof.
  rewrite replace_nonempty_key.
  induction s as [|d s IH]; [reflexivity|].
  rewrite replace_from_step. cbn [prefix].
  destruct (ascii_dec c d) as [->|N].
  - destruct s; cbn [append String.length Nat.pred]; exact IH.
  - cbn [PyStr.mem_char]. rewrite IH, orb_false_r.
    now apply Ascii.eqb_neq.
Qed.

(** X8: the value under the dash-free SSN placeholder never holds a dash,
    whatever the SSN of the record is, and it is the SSN itself when this
    one has no dash. *)
Theorem prepare_replacements_ssn_no_dashes
  (data : CustomerRecord) (m : ReplacementMap) :
  prepare_replacements data = Ok m ->
  exists v, lookup "493748357" m = Some v
            /\ PyStr.mem_char "-" v = false
            /\ (PyStr.mem_char "-" (get (ssn data) "") = false ->
                v = get (ssn data) "").
Proof.
  intros H. prepare_inv H. subst m.
  exists (PyStr.replace "-" "" (get (ssn data) "")).
  split; [reflexivity|]. split.
  - apply replace_char_by_nothing.
  - apply replace_first_char_absent.
Qed.

Lemma prepare_replacements_ssn_no_dashes_witness :
  exists v, lookup "493748357" sample_replacements = Some v
            /\ PyStr.mem_char "-" v = false.
Proof.
  destruct (prepare_replacements_ssn_no_dashes sample_data
              sample_replacements) as [v [H1 [H2 _]]];
    [vm_compute; reflexivity|].
  exists v. split; assumption.
Defined.

(** ** Substitution Engine: edge cases, stability, round trip *)

Lemma replace_step_empty_text (item : string * string) :
  replace_step "" item = "".
Proof.
  destruct item as [old new]. unfold replace_step.
  destruct (PyStr.truthy old && PyStr.truthy new) eqn:E; [|reflexivity].
  destruct old; [discriminate | reflexivity].
Qed.

(** X9: the empty text stays empty under every replacement map: no entry,
    not even one with an empty key, inserts anything into it. *)
Theorem replace_text_in_file_empty_text (m : ReplacementMap) :
  replace_text_in_file "" m = "".
Proof.
  unfold replace_text_in_file.
  induction (sorted_items m) as [|x l IH]; [reflexivity|].
  cbn [fold_left]. now rewrite replace_step_empty_text.
Qed.

Lemma sorted_items_same_length (n : nat) (l : list (string * string)) :
  Forall (fun item => key_len item = n) l -> sorted_items l = l.
Proof.
  induction 1 as [|x l Hx Hl IH]; [reflexivity|].
  cbn [sorted_items]. rewrite IH.
  destruct l as [|y l]; [reflexivity|].
  cbn [insert_item]. apply Forall_inv in Hl.
  assert (E : (key_len x <? key_len y)%nat = false)
    by (apply Nat.ltb_ge; lia).
  now rewrite E.
Qed.

(** X10: the sort of the engine is stable: among the entries whose keys have
    one and the same length, the order of application is the order of the
    dict. *)
Theorem sorted_items_stable (n : nat) (m : ReplacementMap) :
  filter (fun item => Nat.eqb (key_len item) n) (sorted_items m)
  = filter (fun item => Nat.eqb (key_len item) n) m.
Proof.
  rewrite <- sorted_items_filter.
  apply (sorted_items_same_length n).
  apply Forall_forall. intros item Hi.
  apply filter_In in Hi as [_ Hi]. now apply Nat.eqb_eq.
Qed.

(** X11: when no character of the value of an active entry occurs in the key
    of an active entry, the text that [replace_text_in_file] returns holds
    no occurrence of the key of any active entry: every placeholder with a
    non-empty value is gone. *)
Theorem replace_text_in_file_no_key_left
  (m : ReplacementMap) (t k v : string) :
  values_avoid_keys m -> In (k, v) m -> active (k, v) = true ->
  PyStr.occurs k (replace_text_in_file t m) = false.
Proof.
  apply replace_text_in_file_consumes.
Qed.

Lemma replace_text_in_file_no_key_left_witness :
  PyStr.occurs "b"
    (replace_text_in_file "abba-b" [("a", "1"); ("b", "22"); ("-", "")])
  = false.
Proof.
  apply (replace_text_in_file_no_key_left
           [("a", "1"); ("b", "22"); ("-", "")] "abba-b" "b" "22").
  - intros k v c [E|[E|[E|[]]]] Ha Hc; injection E as <- <-;
      try discriminate Ha;
      cbn [PyStr.mem_char] in Hc; rewrite orb_false_r in Hc;
      repeat (apply orb_true_iff in Hc as [Hc|Hc]);
      apply Ascii.eqb_eq in Hc; subst c; vm_compute; reflexivity.
  - right. now left.
  - reflexivity.
Defined.

Lemma prefix_split (p s : string) :
  prefix p s = true -> exists rest, s = p ++ rest.
Proof.
  revert s. induction p as [|c p IH]; intros s H.
  - now exists s.
  - destruct s as [|d s]; [discriminate|].
    cbn [prefix] in H. destruct (ascii_dec c d) as [->|]; [|discriminate].
    destruct (IH s H) as [rest ->]. now exists rest.
Qed.

(** Replacing a key by itself changes nothing. *)
Lemma replace_from_same (c : ascii) (old' : string) (n : nat) :
  forall s, (String.length s <= n)%nat ->
            PyStr.replace_from 0 (String c old') (String c old') s = s.
Proof.
  induction n as [|n IH]; intros s Hs.
  - destruct s; [reflexivity | cbn [String.length] in Hs; lia].
  - destruct s as [|d s]; [reflexivity|].
    destruct (prefix (String c old') (String d s)) eqn:E.
    + destruct (prefix_split _ _ E) as [rest Er]. rewrite Er.
      rewrite replace_from_match. rewrite IH; [reflexivity|].
      apply (f_equal String.length) in Er.
      rewrite length_append in Er. cbn [String.length] in Er, Hs. lia.
    + rewrite replace_from_step, E, IH; [reflexivity|].
      cbn [String.length] in Hs. lia.
Qed.

Lemma replace_step_maps_to_itself (result : string) (item : string * string) :
  maps_to_itself item = true -> replace_step result item = result.
Proof.
  destruct item as [old new]. unfold maps_to_itself. cbn [fst snd].
  intros E. apply String.eqb_eq in E. subst new. unfold replace_step.
  destruct old as [|c old']; [reflexivity|].
  cbn [PyStr.truthy PyStr.is_empty negb andb].
  rewrite replace_nonempty_key.
  now apply (replace_from_same c old' (String.length result)).
Qed.

Lemma fold_replace_step_drop (p : string * string -> bool)
  (l : list (string * string)) (content : string) :
  (forall item result, p item = false -> replace_step result item = result) ->
  fold_left replace_step (filter p l) content
  = fold_left replace_step l content.
Proof.
  intros Hp. revert content.
  induction l as [|x l IH]; intros content; [reflexivity|].
  cbn [filter]. destruct (p x) eqn:E; cbn [fold_left].
  - apply IH.
  - rewrite IH. now rewrite Hp.
Qed.

(** X12: an entry whose value is its own key has no effect: the output is
    the one of the map without such entries.  The builder produces them, for
    instance for the reference number 101262HHIA and for a customer whose
    filing state is the one written in the templates. *)
Theorem replace_text_in_file_identity_entries
  (content : string) (m : ReplacementMap) :
  replace_text_in_file content m
  = replace_text_in_file content
      (filter (fun item => negb (maps_to_itself item)) m).
Proof.
  unfold replace_text_in_file. rewrite sorted_items_filter.
  symmetry. apply fold_replace_step_drop.
  intros item result H. apply replace_step_maps_to_itself.
  now apply negb_false_iff.
Qed.

(** ** Package Orchestrator: the order of the batch *)

Section NameOrder.

Lemma compare_as_OT (a b : string) :
  String.compare a b = OrdersEx.String_as_OT.compare a b.
Proof.
  revert b. induction a as [|c a IH]; intros [|d b]; reflexivity.
Qed.

Lemma name_le_cases (a b : string) :
  name_le a b <-> String.compare a b = Lt \/ a = b.
Proof.
  unfold name_le, String.leb. split.
  - destruct (String.compare a b) eqn:E; intros H;
      [right; now apply String.compare_eq_iff | now left | discriminate].
  - intros [H | ->]; [now rewrite H|].
    assert (E : String.compare b b = Eq).
    { pose proof (String.compare_antisym b b) as H.
      destruct (String.compare b b); try reflexivity; discriminate. }
    now rewrite E.
Qed.

Lemma compare_lt_trans (a b c : string) :
  String.compare a b = Lt -> String.compare b c = Lt ->
  String.compare a c = Lt.
Proof.
  rewrite !compare_as_OT.
  apply (@RelationClasses.StrictOrder_Transitive _ _
           OrdersEx.String_as_OT.lt_strorder).
Qed.

Lemma name_le_trans (a b c : string) :
  name_le a b -> name_le b c -> name_le a c.
Proof.
  rewrite !name_le_cases. intros [H1 | ->] [H2 | ->]; auto.
  left. now apply (compare_lt_trans a b c).
Qed.

Lemma name_le_antisym (a b : string) : name_le a b -> name_le b a -> a = b.
Proof. apply String.leb_antisym. Qed.

Lemma ltb_false_name_le (y x : string) :
  String.ltb y x = false -> name_le x y.
Proof.
  unfold String.ltb, name_le, String.leb.
  rewrite (String.compare_antisym x y).
  destruct (String.compare y x); cbn; congruence.
Qed.

Lemma ltb_true_name_le (y x : string) : String.ltb y x = true -> name_le y x.
Proof.
  unfold String.ltb, name_le, String.leb.
  destruct (String.compare y x); congruence.
Qed.

Lemma insert_name_perm (x : string) (l : list string) :
  Permutation (insert_name x l) (x :: l).
Proof.
  induction l as [|y l IH]; cbn [insert_name]; [reflexivity|].
  destruct (String.ltb y x); [|reflexivity].
  rewrite IH. apply perm_swap.
Qed.

Lemma sort_names_perm (l : list string) : Permutation (sort_names l) l.
Proof.
  induction l as [|x l IH]; cbn [sort_names]; [reflexivity|].
  rewrite insert_name_perm. now apply perm_skip.
Qed.

Lemma insert_name_sorted (x : string) (l : list string) :
  StronglySorted name_le l -> StronglySorted name_le (insert_name x l).
Proof.
  induction 1 as [|y l Hs IH Hy]; cbn [insert_name].
  - constructor; constructor.
  - destruct (String.ltb y x) eqn:E.
    + constructor; [assumption|].
      eapply Permutation_Forall;
        [apply Permutation_sym, insert_name_perm|].
      constructor; [now apply ltb_true_name_le | assumption].
    + apply ltb_false_name_le in E. constructor.
      * now constructor.
      * constructor; [exact E|].
        eapply Forall_impl; [|exact Hy].
        intros z Hz. now apply (name_le_trans x y z).
Qed.

Lemma sort_names_sorted (l : list string) :
  StronglySorted name_le (sort_names l).
Proof.
  induction l as [|x l IH]; cbn [sort_names];
    [constructor | now apply insert_name_sorted].
Qed.

Lemma sorted_names_unique (l1 l2 : list string) :
  StronglySorted name_le l1 -> StronglySorted name_le l2 ->
  Permutation l1 l2 -> l1 = l2.
Proof.
  intros H1. revert l2.
  induction H1 as [|a l1 Hs1 IH Ha]; intros l2 H2 HP.
  - apply Permutation_nil in HP. now subst.
  - destruct l2 as [|b l2];
      [apply Permutation_sym, Permutation_nil in HP; discriminate|].
    apply StronglySorted_inv in H2 as [Hs2 Hb].
    assert (Eab : a = b).
    { assert (Ia : In a (b :: l2))
        by (eapply Permutation_in; [exact HP | now left]).
      assert (Ib : In b (a :: l1))
        by (eapply Permutation_in;
            [apply Permutation_sym; exact HP | now left]).
      destruct Ia as [E|Ia]; [now symmetry|].
      destruct Ib as [E|Ib]; [assumption|].
      rewrite Forall_forall in Ha, Hb.
      apply name_le_antisym; [now apply Ha | now apply Hb]. }
    subst b. f_equal.
    apply IH; [assumption | now apply Permutation_cons_inv in HP].
Qed.

Lemma sort_names_order_independent (l l' : list string) :
  Permutation l l' -> sort_names l = sort_names l'.
Proof.
  intros HP. apply sorted_names_unique; try apply sort_names_sorted.
  rewrite !sort_names_perm. exact HP.
Qed.

Lemma filter_perm {A : Type} (p : A -> bool) (l l' : list A) :
  Permutation l l' -> Permutation (filter p l) (filter p l').
Proof.
  induction 1 as [|x l l' HP IH|x y l|l l' l'' H1 IH1 H2 IH2];
    cbn [filter].
  - constructor.
  - destruct (p x); [now apply perm_skip | assumption].
  - destruct (p x), (p y); try reflexivity. apply perm_swap.
  - now transitivity (filter p l').
Qed.

End NameOrder.

(** X13: the batch of [generate_package] is made of the names of the listing
    that end in .docx, each as often as it is listed, in ascending order;
    the other files of the template directory are ignored. *)
Theorem templates_sorted_docx (names : list string) :
  let templates := sort_names (filter is_docx names) in
  Permutation templates (filter is_docx names)
  /\ StronglySorted name_le templates
  /\ (forall t, In t templates
                <-> In t names /\ PyStr.endswith t ".docx" = true).
Proof.
  intros templates. split; [apply sort_names_perm|].
  split; [apply sort_names_sorted|].
  intros t. change (PyStr.endswith t ".docx") with (is_docx t).
  rewrite <- filter_In. split; intros H.
  - eapply Permutation_in; [apply sort_names_perm | exact H].
  - eapply Permutation_in; [apply Permutation_sym, sort_names_perm | exact H].
Qed.

(** X14: the order in which the template directory is listed has no
    influence on the batch: two listings of the same files give the same
    list of templates. *)
Theorem templates_listing_order_independent (names names' : list string) :
  Permutation names names' ->
  sort_names (filter is_docx names) = sort_names (filter is_docx names').
Proof.
  intros HP. apply sort_names_order_independent. now apply filter_perm.
Qed.

Lemma templates_listing_order_independent_witness :
  sort_names (filter is_docx ["b.docx"; "notes.txt"; "a.docx"])
  = sort_names (filter is_docx ["a.docx"; "b.docx"; "notes.txt"]).
Proof.
  apply (templates_listing_order_independent
           ["b.docx"; "notes.txt"; "a.docx"]
           ["a.docx"; "b.docx"; "notes.txt"]).
  apply perm_trans with (l' := ["b.docx"; "a.docx"; "notes.txt"]).
  - apply perm_skip. apply perm_swap.
  - apply perm_swap.
Defined.

(** ** Package Orchestrator: output names and paths *)

(** X15: the two substitutions of the file name are applied one after the
    other, so a last name that starts with JAD is taken for the second
    token once it has replaced the first: the rest of the name is written
    twice. *)
Theorem output_name_substituted_twice
  (customer_data : CustomerRecord) (r p s : string) :
  lastName customer_data = Some ("JAD" ++ r) ->
  PyStr.mem_char "_" p = false -> PyStr.mem_char "_" s = false ->
  PyStr.mem_char "_" r = false ->
  output_name customer_data (p ++ "_TKC" ++ s) = p ++ "_JAD" ++ r ++ r ++ s.
Proof.
  intros Hl Hp Hs Hr. unfold output_name. rewrite Hl. cbn [get].
  rewrite (replace_single "_" "TKC" ("_" ++ "JAD" ++ r) p s Hp Hs).
  change (p ++ ("_" ++ "JAD" ++ r) ++ s) with (p ++ "_JAD" ++ (r ++ s)).
  rewrite (replace_single "_" "JAD" ("_" ++ "JAD" ++ r) p (r ++ s) Hp).
  - reflexivity.
  - rewrite mem_char_append, Hr, Hs. reflexivity.
Qed.

Lemma output_name_substituted_twice_witness :
  output_name
    (mk_customer None None (Some "JADE") None None None None None None None
       None None None None None None None None)
    "Cover_TKC.docx"
  = "Cover_JADEE.docx".
Proof.
  apply (output_name_substituted_twice _ "E" "Cover" ".docx");
    reflexivity.
Defined.

(** The substitution of a token that starts with an underscore by a text
    that starts with an underscore does not change whether the name starts
    with a slash. *)
Lemma replace_keeps_leading_slash (old' new' s : string) :
  prefix "/" (PyStr.replace (String "_" old') (String "_" new') s)
  = prefix "/" s.
Proof.
  rewrite replace_nonempty_key.
  destruct s as [|d s]; [reflexivity|].
  rewrite replace_from_step.
  destruct (prefix (String "_" old') (String d s)) eqn:E.
  - cbn [prefix] in E. destruct (ascii_dec "_" d) as [<-|]; [|discriminate].
    reflexivity.
  - cbn [prefix]. destruct (ascii_dec "/" d); [|reflexivity].
    now destruct (PyStr.replace_from 0 (String "_" old') (String "_" new') s),
      s.
Qed.

Lemma output_name_leading_slash (customer_data : CustomerRecord) (t : string) :
  prefix "/" (output_name customer_data t) = prefix "/" t.
Proof.
  unfold output_name. cbn [append].
  now rewrite !replace_keeps_leading_slash.
Qed.

Lemma path_join_relative (a b : string) :
  prefix "/" b = false -> prefix a (path_join a b) = true.
Proof.
  intros H. unfold path_join. rewrite H.
  destruct (PyStr.is_empty a || PyStr.endswith a "/"); apply prefix_append.
Qed.

(** X16: whatever the last name of the customer is, every output path of
    the batch starts with the output directory, as long as no template name
    starts with a slash (the names of a directory listing never do): the
    name substituted into the file name cannot turn the path into an
    absolute one. *)
Theorem outcomes_under_output_dir
  (World : Type)
  (process_document :
     string -> ReplacementMap -> string -> World -> World * option string)
  (template_dir out_dir : string) (customer_data : CustomerRecord)
  (replacements : ReplacementMap) (templates : list string) (w : World) :
  Forall (fun t => prefix "/" t = false) templates ->
  Forall (fun o => prefix out_dir (out_path o) = true)
    (outcomes World process_document template_dir out_dir customer_data
       replacements templates w).
Proof.
  intros H. revert w. induction H as [|t rest Ht Hrest IH]; intros w.
  - constructor.
  - cbn [outcomes].
    destruct (process_document _ _ _ w) as [w' r].
    constructor; [|apply IH].
    cbn [out_path]. apply path_join_relative.
    now rewrite output_name_leading_slash.
Qed.

Lemma outcomes_under_output_dir_witness :
  Forall (fun o => prefix "out" (out_path o) = true)
    (outcomes nat corpus_process "templates" "out" sample_data
       sample_replacements ["01_Cover_TKC.docx"; "_TKC.docx"] O).
Proof.
  apply (outcomes_under_output_dir nat corpus_process).
  repeat constructor.
Defined.

(** ** Conversion, merge and archive *)

Lemma basename_no_slash (p : string) :
  PyStr.mem_char "/" (PyPath.basename p) = false.
Proof.
  induction p as [|c p IH]; [reflexivity|].
  cbn [PyPath.basename].
  destruct (PyStr.mem_char "/" p) eqn:E; [exact IH|].
  unfold PyPath.is_sep. destruct (Ascii.eqb c "/") eqn:Ec; [exact E|].
  cbn [PyStr.mem_char]. now rewrite Ascii.eqb_sym, Ec, E.
Qed.

Lemma basename_after_slash (d f : string) :
  PyStr.mem_char "/" f = false -> PyPath.basename (d ++ String "/" f) = f.
Proof.
  intros Hf. induction d as [|c d IH].
  - cbn [append PyPath.basename]. now rewrite Hf.
  - cbn [append PyPath.basename].
    rewrite mem_char_append. cbn [PyStr.mem_char].
    rewrite Ascii.eqb_refl, orb_true_r. exact IH.
Qed.

Lemma basename_no_directory (f : string) :
  PyStr.mem_char "/" f = false -> PyPath.basename f = f.
Proof.
  destruct f as [|c f]; [reflexivity|].
  cbn [PyStr.mem_char PyPath.basename]. intros H.
  apply orb_false_iff in H as [Hc Hf]. rewrite Hf.
  unfold PyPath.is_sep. now rewrite Ascii.eqb_sym, Hc.
Qed.

Lemma endswith_split (s suffix : string) :
  PyStr.endswith s suffix = true -> exists pre, s = pre ++ suffix.
Proof.
  induction s as [|c s IH]; cbn [PyStr.endswith]; intros H.
  - rewrite orb_false_r in H. apply String.eqb_eq in H. subst.
    now exists "".
  - apply orb_true_iff in H as [H|H].
    + apply String.eqb_eq in H. rewrite <- H. now exists "".
    + destruct (IH H) as [pre ->]. now exists (String c pre).
Qed.

Lemma basename_path_join (d f : string) :
  PyStr.mem_char "/" f = false -> PyPath.basename (path_join d f) = f.
Proof.
  intros Hf. unfold path_join.
  assert (Hp : prefix "/" f = false).
  { destruct f as [|c f]; [reflexivity|]. cbn [prefix].
    destruct (ascii_dec "/" c) as [<-|]; [|reflexivity].
    cbn [PyStr.mem_char] in Hf. now rewrite Ascii.eqb_refl in Hf. }
  rewrite Hp.
  destruct (PyStr.is_empty d) eqn:Ed.
  - destruct d; [|discriminate]. cbn [orb append].
    now apply basename_no_directory.
  - cbn [orb]. destruct (PyStr.endswith d "/") eqn:Es.
    + destruct (endswith_split _ _ Es) as [pre ->].
      rewrite append_assoc. now apply basename_after_slash.
    + now apply basename_after_slash.
Qed.

Lemma endswith_refl (s : string) : PyStr.endswith s s = true.
Proof.
  destruct s; cbn [PyStr.endswith]; now rewrite String.eqb_refl.
Qed.

Lemma endswith_basename (p : string) :
  PyStr.endswith p (PyPath.basename p) = true.
Proof.
  induction p as [|c p IH]; [reflexivity|].
  cbn [PyPath.basename].
  destruct (PyStr.mem_char "/" p).
  - cbn [PyStr.endswith]. rewrite IH. apply orb_true_r.
  - destruct (PyPath.is_sep c); [|apply endswith_refl].
    cbn [PyStr.endswith]. rewrite endswith_refl. apply orb_true_r.
Qed.

(** X17: the archive name that [create_zip_package] passes to
    [ZipFile.write] for a file is the end of the path of the file and holds
    no slash: no directory of the path of a file is carried into the name
    under which the file is added. *)
Theorem zip_members_flat (files : list string) :
  Forall (fun member =>
            PyStr.endswith (snd member) (fst member) = true
            /\ PyStr.mem_char "/" (fst member) = false)
    (zip_members files).
Proof.
  unfold zip_members. apply Forall_map, Forall_forall.
  intros f _. cbn [fst snd].
  split; [apply endswith_basename | apply basename_no_slash].
Qed.

(** X18: two files of the same name in different directories are stored
    under one and the same member name. *)
Theorem zip_members_collide (d1 d2 f : string) :
  PyStr.mem_char "/" f = false ->
  zip_members [path_join d1 f; path_join d2 f]
  = [(f, path_join d1 f); (f, path_join d2 f)].
Proof.
  intros Hf. unfold zip_members. cbn [List.map].
  now rewrite !basename_path_join.
Qed.

Lemma zip_members_collide_witness :
  zip_members [path_join "out/a" "doc.pdf"; path_join "out/b/" "doc.pdf"]
  = [("doc.pdf", "out/a/doc.pdf"); ("doc.pdf", "out/b/doc.pdf")].
Proof.
  apply (zip_members_collide "out/a" "out/b/" "doc.pdf"). reflexivity.
Defined.

(** X19: the path of the converted file is obtained by replacing every
    occurrence of .docx in the path of the document, in the directory part
    as well as in the extension. *)
Theorem pdf_path_replaces_every_docx (pre mid : string) :
  PyStr.mem_char "." pre = false -> PyStr.mem_char "." mid = false ->
  pdf_path_of (pre ++ ".docx") = pre ++ ".pdf"
  /\ pdf_path_of (pre ++ ".docx" ++ mid ++ ".docx")
     = pre ++ ".pdf" ++ mid ++ ".pdf".
Proof.
  intros Hp Hm. unfold pdf_path_of. split.
  - exact (replace_single "." "docx" ".pdf" pre "" Hp eq_refl).
  - rewrite replace_nonempty_key.
    rewrite (replace_from_copy "." "docx" ".pdf" pre _ Hp).
    rewrite (replace_from_match "." "docx" ".pdf").
    rewrite (replace_from_copy "." "docx" ".pdf" mid _ Hm).
    reflexivity.
Qed.

Lemma pdf_path_replaces_every_docx_witness :
  pdf_path_of "out/Cover_Smith.docx" = "out/Cover_Smith.pdf"
  /\ pdf_path_of "jobs.docx_files/Cover.docx" = "jobs.pdf_files/Cover.pdf".
Proof.
  split.
  - apply (pdf_path_replaces_every_docx "out/Cover_Smith" ""); reflexivity.
  - apply (pdf_path_replaces_every_docx "jobs" "_files/Cover"); reflexivity.
Defined.

Section FullPackageFacts.

Variable World : Type.
Variable makedirs : string -> World -> result World.
Variable listdir : string -> World -> result (list string).
Variable process_document :
  string -> ReplacementMap -> string -> World -> World * option string.
Variable run_soffice : string -> string -> World -> result (Z * World).
Variable path_exists : string -> World -> bool.
Variable Page : Type.
Variable pages_added : string -> World -> list Page.
Variable write_pdf : string -> list Page -> World -> result World.
Variable write_zip : string -> list (string * string) -> World -> result World.

Lemma subsequence_nil {A : Type} (l : list A) : subsequence [] l.
Proof. induction l; now constructor. Qed.

Lemma subsequence_length {A : Type} (l1 l2 : list A) :
  subsequence l1 l2 -> (List.length l1 <= List.length l2)%nat.
Proof. induction 1; cbn [List.length]; lia. Qed.

Lemma convert_loop_subsequence (docx_files pdfs0 pdfs : list string)
  (w w' : World) :
  convert_loop World run_soffice path_exists docx_files pdfs0 w
  = Ok (pdfs, w') ->
  exists new, pdfs = List.app pdfs0 new
              /\ subsequence new (List.map pdf_path_of docx_files).
Proof.
  revert pdfs0 w. induction docx_files as [|d rest IH]; intros pdfs0 w H.
  - cbn [convert_loop] in H. injection H as <- <-.
    exists []. split; [now rewrite app_nil_r | constructor].
  - cbn [convert_loop] in H.
    destruct (run_soffice (PyPath.dirname d) d w) as [[code w1]|e];
      cbn [bind] in H; [|discriminate].
    destruct (code =? 0).
    + destruct (path_exists (PyStr.replace ".docx" ".pdf" d) w1).
      * destruct (IH _ _ H) as [new [-> Hs]].
        exists (pdf_path_of d :: new). split.
        -- now rewrite <- app_assoc.
        -- cbn [List.map]. now constructor.
      * destruct (IH _ _ H) as [new [-> Hs]].
        exists new. split; [reflexivity|]. cbn [List.map]. now constructor.
    + destruct (IH _ _ H) as [new [-> Hs]].
      exists new. split; [reflexivity|]. cbn [List.map]. now constructor.
Qed.

Lemma conversions_documents (docx_files : list string) (w : World)
  (trace : list (string * bool)) :
  conversions World run_soffice path_exists docx_files w = Ok trace ->
  List.map fst trace = docx_files.
Proof.
  revert w trace. induction docx_files as [|d rest IH]; intros w trace H.
  - cbn [conversions] in H. now injection H as <-.
  - cbn [conversions] in H.
    destruct (run_soffice (PyPath.dirname d) d w) as [[code w1]|e];
      cbn [bind] in H; [|discriminate].
    destruct (conversions World run_soffice path_exists rest w1)
      as [tr|e] eqn:E; cbn [bind] in H; [|discriminate].
    injection H as <-. cbn [List.map fst]. now rewrite (IH _ _ E).
Qed.

Lemma converted_subsequence (trace : list (string * bool)) :
  subsequence (converted trace) (List.map pdf_path_of (List.map fst trace)).
Proof.
  unfold converted.
  induction trace as [|[d kept] trace IH]; [constructor|].
  cbn [filter List.map fst snd]. destruct kept; now constructor.
Qed.

(** The loop and the run agree: the loop appends the PDF paths of the
    converted documents of the whole run, and raises when the run does. *)
Lemma convert_loop_conversions (docx_files pdfs0 : list string) (w : World) :
  match conversions World run_soffice path_exists docx_files w with
  | Ok trace =>
      exists w',
        convert_loop World run_soffice path_exists docx_files pdfs0 w
        = Ok (List.app pdfs0 (converted trace), w')
  | Raise e =>
      convert_loop World run_soffice path_exists docx_files pdfs0 w = Raise e
  end.
Proof.
  revert pdfs0 w. induction docx_files as [|d rest IH]; intros pdfs0 w.
  - cbn [conversions convert_loop]. exists w. unfold converted.
    cbn [filter List.map]. now rewrite app_nil_r.
  - cbn [conversions convert_loop].
    destruct (run_soffice (PyPath.dirname d) d w) as [[code w1]|e];
      cbn [bind]; [|reflexivity].
    change (PyStr.replace ".docx" ".pdf" d) with (pdf_path_of d).
    destruct (code =? 0); cbn [andb].
    + destruct (path_exists (pdf_path_of d) w1).
      * specialize (IH (List.app pdfs0 [pdf_path_of d]) w1).
        destruct (conversions World run_soffice path_exists rest w1)
          as [tr|e]; cbn [bind]; [|exact IH].
        destruct IH as [w' IH]. exists w'. rewrite IH.
        unfold converted. cbn [filter snd List.map fst].
        now rewrite <- app_assoc.
      * specialize (IH pdfs0 w1).
        destruct (conversions World run_soffice path_exists rest w1)
          as [tr|e]; cbn [bind]; [|exact IH].
        destruct IH as [w' IH]. exists w'. now rewrite IH.
    + specialize (IH pdfs0 w1).
      destruct (conversions World run_soffice path_exists rest w1)
        as [tr|e]; cbn [bind]; [|exact IH].
      destruct IH as [w' IH]. exists w'. now rewrite IH.
Qed.

(** X20: [convert_all_to_pdf] goes through all the documents, whatever the
    return codes of the converter are: when it returns, the converter has
    been run on every document, in order, and the list returned holds
    exactly the PDF paths of the documents for which the converter returned
    0 and the PDF file exists, a document after a failed conversion
    included; so it is made of PDF paths of the documents, in their order,
    and is never longer than the list of documents.  Conversely it returns
    whenever the converter can be started on every document. *)
Theorem convert_all_to_pdf_subsequence (docx_files : list string) (w : World) :
  (forall pdfs w',
     convert_all_to_pdf World run_soffice path_exists docx_files w
     = Ok (pdfs, w') ->
     exists trace,
       conversions World run_soffice path_exists docx_files w = Ok trace
       /\ List.map fst trace = docx_files
       /\ pdfs = converted trace
       /\ subsequence pdfs (List.map pdf_path_of docx_files)
       /\ (List.length pdfs <= List.length docx_files)%nat)
  /\ (forall trace,
        conversions World run_soffice path_exists docx_files w = Ok trace ->
        exists w',
          convert_all_to_pdf World run_soffice path_exists docx_files w
          = Ok (converted trace, w')).
Proof.
  pose proof (convert_loop_conversions docx_files [] w) as H.
  unfold convert_all_to_pdf. split.
  - intros pdfs w' E.
    destruct (conversions World run_soffice path_exists docx_files w)
      as [trace|e] eqn:Et; [|congruence].
    destruct H as [w2 H]. rewrite H in E. cbn [List.app] in E.
    injection E as <- <-. exists trace.
    pose proof (conversions_documents _ _ _ Et) as Hd.
    pose proof (converted_subsequence trace) as Hs. rewrite Hd in Hs.
    repeat split; try assumption; try reflexivity.
    apply subsequence_length in Hs. now rewrite length_map in Hs.
  - intros trace Et. rewrite Et in H. exact H.
Qed.

(** X21: the merged file does not depend on the order of the list given to
    [merge_pdfs]: the pages are those of the files in the ascending order of
    their paths. *)
Theorem merged_pages_order_independent (pdfs pdfs' : list string)
  (output_path : string) (w : World) :
  Permutation pdfs pdfs' ->
  merged_pages World Page pages_added pdfs w
  = merged_pages World Page pages_added pdfs' w
  /\ merge_pdfs World Page pages_added write_pdf pdfs output_path w
     = merge_pdfs World Page pages_added write_pdf pdfs' output_path w.
Proof.
  intros HP. unfold merge_pdfs, merged_pages.
  now rewrite (sort_names_order_independent pdfs pdfs' HP).
Qed.

(** X22: whenever [generate_full_package] returns, its result carries the
    result of [generate_package] unchanged.  The three PDF entries are
    missing exactly when no document was generated; otherwise the list of
    PDF files is the one of [convert_all_to_pdf] on the generated
    documents, and the names of the merged file and of the archive are
    built from the last name and the document date (or their defaults) even
    when no PDF exists, in which case neither file is written. *)
Theorem generate_full_package_result
  (template_dir out_dir : string) (customer_data : CustomerRecord)
  (w w' : World) (res : PackageResult) (outs : option PdfOutputs) :
  generate_full_package World makedirs listdir process_document run_soffice
    path_exists Page pages_added write_pdf write_zip
    template_dir customer_data out_dir w = Ok (res, outs, w') ->
  exists w1,
    generate_package World makedirs listdir process_document
      template_dir customer_data out_dir w = Ok (res, w1)
    /\ (outs = None <-> generated res = [])
    /\ (forall o, outs = Some o ->
          merged_pdf o
          = path_join out_dir
              ("Treasury_Package_" ++ get (lastName customer_data) "Customer"
               ++ "_" ++ get (documentDate customer_data) "undated"
               ++ "_COMPLETE.pdf")
          /\ zip_file o
             = path_join out_dir
                 ("Treasury_Package_"
                  ++ get (lastName customer_data) "Customer"
                  ++ "_" ++ get (documentDate customer_data) "undated"
                  ++ "_Individual_PDFs.zip")
          /\ exists w2,
               convert_all_to_pdf World run_soffice path_exists
                 (generated res) w1 = Ok (pdf_files o, w2)
               /\ (pdf_files o = [] -> w' = w2)).
Proof.
  intros H. unfold generate_full_package in H.
  destruct (generate_package World makedirs listdir process_document
              template_dir customer_data out_dir w) as [[res1 w1]|e];
    cbn [bind] in H; [|discriminate].
  destruct (generated res1) as [|g gs] eqn:Eg; cbn [is_nil] in H.
  - injection H as <- <- <-. exists w1.
    split; [reflexivity|]. split; [now rewrite Eg|]. discriminate.
  - destruct (convert_all_to_pdf World run_soffice path_exists (g :: gs) w1)
      as [[pdfs w2]|e] eqn:Ec; cbn [bind] in H; [|discriminate].
    destruct pdfs as [|x pdfs]; cbn [is_nil] in H.
    + cbn [bind] in H. injection H as <- <- <-. exists w1.
      split; [reflexivity|]. split.
      * rewrite Eg. split; discriminate.
      * intros o Ho. injection Ho as <-. cbn [merged_pdf zip_file pdf_files].
        rewrite Eg. split; [reflexivity|]. split; [reflexivity|].
        exists w2. now split.
    + destruct (merge_pdfs World Page pages_added write_pdf (x :: pdfs) _ w2)
        as [w3|e]; cbn [bind] in H; [|discriminate].
      destruct (create_zip_package World write_zip (x :: pdfs) _ w3)
        as [w4|e]; cbn [bind] in H; [|discriminate].
      injection H as <- <- <-. exists w1.
      split; [reflexivity|]. split.
      * rewrite Eg. split; discriminate.
      * intros o Ho. injection Ho as <-. cbn [merged_pdf zip_file pdf_files].
        rewrite Eg. split; [reflexivity|]. split; [reflexivity|].
        exists w2. split; [exact Ec | discriminate].
Qed.

End FullPackageFacts.

Lemma convert_all_to_pdf_subsequence_witness :
  exists trace,
    conversions nat corpus_soffice corpus_exists
      ["out/01_Cover_Smith.docx"; "out/02_Security_Smith.docx";
       "out/04_Affidavit_Smith.docx"] O = Ok trace
    /\ List.map snd trace = [true; false; true]
    /\ converted trace
       = ["out/01_Cover_Smith.pdf"; "out/04_Affidavit_Smith.pdf"]
    /\ subsequence ["out/01_Cover_Smith.pdf"; "out/04_Affidavit_Smith.pdf"]
         (List.map pdf_path_of
            ["out/01_Cover_Smith.docx"; "out/02_Security_Smith.docx";
             "out/04_Affidavit_Smith.docx"]).
Proof.
  destruct (convert_all_to_pdf_subsequence nat corpus_soffice corpus_exists
              ["out/01_Cover_Smith.docx"; "out/02_Security_Smith.docx";
               "out/04_Affidavit_Smith.docx"] O) as [H _].
  destruct (H ["out/01_Cover_Smith.pdf"; "out/04_Affidavit_Smith.pdf"]
              2%nat) as [trace [Ht [_ [Hc [Hs _]]]]];
    [vm_compute; reflexivity|].
  exists trace. split; [exact Ht|].
  split; [|split; [now symmetry | exact Hs]].
  vm_compute in Ht. injection Ht as <-. reflexivity.
Defined.

Lemma merged_pages_order_independent_witness :
  merged_pages nat string (fun f _ => [f]) ["b.pdf"; "a.pdf"] O
  = merged_pages nat string (fun f _ => [f]) ["a.pdf"; "b.pdf"] O.
Proof.
  apply (merged_pages_order_independent nat string (fun f _ => [f])
           (fun _ _ w => Ok w) ["b.pdf"; "a.pdf"] ["a.pdf"; "b.pdf"] "m.pdf" O).
  apply perm_swap.
Defined.

Lemma generate_full_package_result_witness :
  (snd (fst corpus_full_result) = None
   <-> generated (fst (fst corpus_full_result)) = [])
  /\ List.length (generated (fst (fst corpus_full_result))) = 4%nat.
Proof.
  destruct (generate_full_package_result nat corpus_makedirs corpus_listdir
              corpus_process corpus_soffice corpus_exists string
              (fun f _ => [f]) (fun _ _ w => Ok w) (fun _ _ w => Ok w)
              "templates" "out" sample_data O (snd corpus_full_result)
              (fst (fst corpus_full_result)) (snd (fst corpus_full_result)))
    as [w1 [_ [H _]]]; [vm_compute; reflexivity|].
  split; [exact H | reflexivity].
Defined.

(** ** Document Processor *)

Section DocumentProcessorFacts.

Variable World : Type.
Variable Bytes : Type.
Variable extractall : string -> World -> string + Tree Bytes.
Variable read_text : Bytes -> string + string.
Variable write_text : string -> Bytes.
Variable write_archive :
  string -> Tree Bytes -> World -> World * option string.

Lemma update_file_names (name : string) (b : Bytes) (tree : Tree Bytes) :
  List.map fst (update_file Bytes name b tree) = List.map fst tree.
Proof.
  induction tree as [|[n b0] tree IH]; [reflexivity|].
  cbn [update_file List.map fst]. now rewrite IH.
Qed.

Lemma lookup_update_other (name name' : string) (b : Bytes)
  (tree : Tree Bytes) :
  name' <> name ->
  lookup_file Bytes name' (update_file Bytes name b tree)
  = lookup_file Bytes name' tree.
Proof.
  intros Hn. induction tree as [|[n b0] tree IH]; [reflexivity|].
  cbn [update_file lookup_file].
  destruct (String.eqb n name') eqn:E; [|exact IH].
  apply String.eqb_eq in E. subst n.
  assert (E : String.eqb name' name = false) by (now apply String.eqb_neq).
  now rewrite E.
Qed.

Lemma lookup_update_same (name : string) (b b0 : Bytes) (tree : Tree Bytes) :
  lookup_file Bytes name tree = Some b0 ->
  lookup_file Bytes name (update_file Bytes name b tree) = Some b.
Proof.
  induction tree as [|[n b1] tree IH]; [discriminate|].
  cbn [update_file lookup_file].
  destruct (String.eqb n name); [reflexivity | exact IH].
Qed.

Lemma process_part_names (replacements : ReplacementMap)
  (tree tree' : Tree Bytes) (name : string) :
  process_part Bytes read_text write_text replacements tree name = inr tree' ->
  List.map fst tree' = List.map fst tree
  /\ (forall name', name' <> name ->
        lookup_file Bytes name' tree' = lookup_file Bytes name' tree).
Proof.
  unfold process_part.
  destruct (lookup_file Bytes name tree) as [b|];
    [|intros H; injection H as <-; now split].
  destruct (read_text b) as [msg|content]; [discriminate|].
  intros H. injection H as <-. split.
  - apply update_file_names.
  - intros name' Hn. now apply lookup_update_other.
Qed.

Lemma process_parts_names (replacements : ReplacementMap)
  (names : list string) (tree tree' : Tree Bytes) :
  process_parts Bytes read_text write_text replacements names tree
  = inr tree' ->
  List.map fst tree' = List.map fst tree
  /\ (forall name', ~ In name' names ->
        lookup_file Bytes name' tree' = lookup_file Bytes name' tree).
Proof.
  revert tree. induction names as [|x names IH]; intros tree H.
  - cbn [process_parts] in H. injection H as <-. now split.
  - cbn [process_parts] in H.
    destruct (process_part Bytes read_text write_text replacements tree x)
      as [msg|tree1] eqn:E; [discriminate|].
    destruct (process_part_names _ _ _ _ E) as [N1 L1].
    destruct (IH _ H) as [N2 L2]. split; [congruence|].
    intros name' Hn. rewrite L2, L1; [reflexivity | |];
      intros C; apply Hn; [now left | now right].
Qed.

(** X23: when the loop of [process_docx_xml] ends without an exception, the
    scratch directory holds the same files as after the extraction, and the
    content of every file that is not one of the seven named parts (media,
    styles, relations, ...) is the one extracted. *)
Theorem process_parts_keeps_other_members (replacements : ReplacementMap)
  (tree tree' : Tree Bytes) :
  process_parts Bytes read_text write_text replacements xml_files tree
  = inr tree' ->
  List.map fst tree' = List.map fst tree
  /\ (forall name, ~ In name xml_files ->
        lookup_file Bytes name tree' = lookup_file Bytes name tree).
Proof.
  apply process_parts_names.
Qed.

Lemma process_parts_rewrites (replacements : ReplacementMap)
  (names : list string) (tree tree' : Tree Bytes) :
  NoDup names ->
  process_parts Bytes read_text write_text replacements names tree
  = inr tree' ->
  forall name b, In name names -> lookup_file Bytes name tree = Some b ->
    exists content,
      read_text b = inr content
      /\ lookup_file Bytes name tree'
         = Some (write_text (replace_text_in_file content replacements)).
Proof.
  intros Hnd. revert tree.
  induction Hnd as [|x names Hx Hnd IH]; intros tree H name b Hin Hb;
    [destruct Hin|].
  cbn [process_parts] in H.
  destruct (process_part Bytes read_text write_text replacements tree x)
    as [msg|tree1] eqn:E; [discriminate|].
  destruct Hin as [->|Hin].
  - unfold process_part in E. rewrite Hb in E.
    destruct (read_text b) as [msg|content]; [discriminate|].
    injection E as <-. exists content. split; [reflexivity|].
    destruct (process_parts_names _ _ _ _ H) as [_ L].
    rewrite (L name Hx). now apply (lookup_update_same name _ b).
  - destruct (process_part_names _ _ _ _ E) as [_ L1].
    apply (IH tree1 H name b Hin).
    rewrite L1; [exact Hb|]. intros ->. now apply Hx.
Qed.

Lemma xml_files_NoDup : NoDup xml_files.
Proof. apply distinct_NoDup. vm_compute. reflexivity. Qed.

(** X24: when the loop ends without an exception, each of the seven named
    parts that the container holds has been read as text and written again
    as the result of [replace_text_in_file] on that text. *)
Theorem process_parts_rewrites_parts (replacements : ReplacementMap)
  (tree tree' : Tree Bytes) (name : string) (b : Bytes) :
  process_parts Bytes read_text write_text replacements xml_files tree
  = inr tree' ->
  In name xml_files -> lookup_file Bytes name tree = Some b ->
  exists content,
    read_text b = inr content
    /\ lookup_file Bytes name tree'
       = Some (write_text (replace_text_in_file content replacements)).
Proof.
  intros H Hin Hb.
  exact (process_parts_rewrites replacements xml_files tree tree'
           xml_files_NoDup H name b Hin Hb).
Qed.

Lemma process_parts_fails (replacements : ReplacementMap)
  (names : list string) (tree : Tree Bytes) (name : string) (b : Bytes)
  (msg0 : string) :
  In name names -> lookup_file Bytes name tree = Some b ->
  read_text b = inl msg0 ->
  exists msg,
    process_parts Bytes read_text write_text replacements names tree
    = inl msg.
Proof.
  revert tree. induction names as [|x names IH]; intros tree Hin Hb Hr;
    [destruct Hin|].
  cbn [process_parts].
  destruct (process_part Bytes read_text write_text replacements tree x)
    as [msg|tree1] eqn:E; [now exists msg|].
  destruct (String.eqb x name) eqn:Ex.
  - apply String.eqb_eq in Ex. subst x.
    unfold process_part in E. rewrite Hb, Hr in E. discriminate.
  - apply String.eqb_neq in Ex.
    destruct Hin as [->|Hin]; [now elim Ex|].
    destruct (process_part_names _ _ _ _ E) as [_ L1].
    apply (IH tree1 Hin); [|exact Hr].
    rewrite L1; [exact Hb|]. intros ->. now apply Ex.
Qed.

(** X25: when one of the named parts of the container cannot be read as
    text, [process_docx_xml] raises before the output is opened: no archive
    is written, and the state of the files is the one before the call. *)
Theorem process_docx_xml_unreadable_part
  (docx_path output_path : string) (replacements : ReplacementMap)
  (w : World) (tree : Tree Bytes) (name : string) (b : Bytes)
  (msg0 : string) :
  extractall docx_path w = inr tree ->
  In name xml_files -> lookup_file Bytes name tree = Some b ->
  read_text b = inl msg0 ->
  exists msg,
    process_docx_xml World Bytes extractall read_text write_text
      write_archive docx_path replacements output_path w = (w, Some msg).
Proof.
  intros He Hin Hb Hr. unfold process_docx_xml. rewrite He.
  destruct (process_parts_fails replacements xml_files tree name b msg0
              Hin Hb Hr) as [msg ->].
  now exists msg.
Qed.

Lemma process_parts_absent (replacements : ReplacementMap)
  (names : list string) (tree : Tree Bytes) :
  (forall name, In name names -> lookup_file Bytes name tree = None) ->
  process_parts Bytes read_text write_text replacements names tree
  = inr tree.
Proof.
  induction names as [|x names IH]; intros H; [reflexivity|].
  cbn [process_parts]. unfold process_part.
  rewrite (H x) by now left. apply IH. intros name Hn. apply H. now right.
Qed.

(** X26: a container that holds none of the seven named parts is not an
    error: it is repacked with the files extracted from it. *)
Theorem process_docx_xml_without_parts
  (docx_path output_path : string) (replacements : ReplacementMap)
  (w : World) (tree : Tree Bytes) :
  extractall docx_path w = inr tree ->
  (forall name, In name xml_files -> lookup_file Bytes name tree = None) ->
  process_docx_xml World Bytes extractall read_text write_text
    write_archive docx_path replacements output_path w
  = write_archive output_path tree w.
Proof.
  intros He H. unfold process_docx_xml. rewrite He.
  now rewrite (process_parts_absent replacements xml_files tree H).
Qed.

End DocumentProcessorFacts.

Lemma process_parts_keeps_other_members_witness :
  List.map fst corpus_good_output = List.map fst corpus_good_tree
  /\ lookup_file string "word/media/image1.png" corpus_good_output
     = Some "THOMAS CLAYCOMB".
Proof.
  destruct (process_parts_keeps_other_members string corpus_read_text
              (fun text => text) sample_replacements corpus_good_tree
              corpus_good_output) as [H1 H2]; [vm_compute; reflexivity|].
  split; [exact H1|].
  rewrite H2; [reflexivity|].
  intros H. repeat (destruct H as [H|H]; [discriminate|]). exact H.
Defined.

Lemma process_parts_rewrites_parts_witness :
  lookup_file string "word/document.xml" corpus_good_output
  = Some "Dear JOHN SMITH of Texas".
Proof.
  destruct (process_parts_rewrites_parts string corpus_read_text
              (fun text => text) sample_replacements corpus_good_tree
              corpus_good_output "word/document.xml"
              "Dear THOMAS CLAYCOMB of Florida")
    as [content [Hc Hl]];
    [vm_compute; reflexivity | now left | reflexivity|].
  rewrite Hl. vm_compute in Hc. injection Hc as <-.
  vm_compute. reflexivity.
Defined.

Lemma process_docx_xml_unreadable_part_witness :
  exists msg,
    process_docx_xml nat string corpus_extractall corpus_read_text
      (fun text => text) corpus_write_archive
      "bad.docx" sample_replacements "out/bad.docx" O = (O, Some msg).
Proof.
  apply (process_docx_xml_unreadable_part nat string corpus_extractall
           corpus_read_text (fun text => text) corpus_write_archive
           "bad.docx" "out/bad.docx" sample_replacements O
           [("word/header1.xml", "493-74-8357");
            ("word/document.xml", String (ascii_of_nat 255) "")]
           "word/document.xml" (String (ascii_of_nat 255) "")
           "'utf-8' codec can't decode byte 0xff in position 0").
  - reflexivity.
  - now left.
  - reflexivity.
  - reflexivity.
Defined.

Lemma process_docx_xml_without_parts_witness :
  process_docx_xml nat string corpus_extractall corpus_read_text
    (fun text => text) corpus_write_archive
    "bare.docx" sample_replacements "out/bare.docx" O
  = corpus_write_archive "out/bare.docx" [("[Content_Types].xml", "<Types/>")]
      O.
Proof.
  apply (process_docx_xml_without_parts nat string corpus_extractall
           corpus_read_text (fun text => text) corpus_write_archive
           "bare.docx" "out/bare.docx" sample_replacements O
           [("[Content_Types].xml", "<Types/>")]).
  - reflexivity.
  - intros name H.
    repeat (destruct H as [<-|H]; [reflexivity|]). destruct H.
Defined.

(** ** The batch over readable containers *)

Section ReadableCorpus.

Variable World : Type.
Variable Bytes : Type.
Variable makedirs : string -> World -> result World.
Variable listdir : string -> World -> result (list string).
Variable extractall : string -> World -> string + Tree Bytes.
Variable read_text : Bytes -> string + string.
Variable write_text : string -> Bytes.
Variable write_archive :
  string -> Tree Bytes -> World -> World * option string.

Lemma process_parts_succeeds (replacements : ReplacementMap)
  (names : list string) (tree : Tree Bytes) :
  NoDup names ->
  (forall name b, In name names -> lookup_file Bytes name tree = Some b ->
                  exists content, read_text b = inr content) ->
  exists tree',
    process_parts Bytes read_text write_text replacements names tree
    = inr tree'.
Proof.
  intros Hnd. revert tree.
  induction Hnd as [|x names Hx Hnd IH]; intros tree H.
  - now exists tree.
  - cbn [process_parts].
    destruct (process_part Bytes read_text write_text replacements tree x)
      as [msg|tree1] eqn:E.
    + unfold process_part in E.
      destruct (lookup_file Bytes x tree) as [b|] eqn:Eb; [|discriminate].
      destruct (H x b (or_introl eq_refl) Eb) as [content Ec].
      rewrite Ec in E. discriminate.
    + apply IH. intros name b Hin Hb.
      destruct (process_part_names Bytes read_text write_text _ _ _ _ E)
        as [_ L].
      apply (H name b); [now right|].
      rewrite <- L; [exact Hb|]. intros ->. now apply Hx.
Qed.

Lemma all_succeeded (f : string -> string) (l : list string) :
  failed (List.map (fun t => mk_outcome t (f t) None) l) = []
  /\ succeeded (List.map (fun t => mk_outcome t (f t) None) l)
     = List.map f l.
Proof.
  induction l as [|t l [IH1 IH2]]; [now split|].
  unfold failed, succeeded in *.
  cbn [List.map flat_map failure out_path List.app].
  rewrite IH1, IH2. now split.
Qed.

Lemma outcomes_readable (template_dir out_dir : string)
  (customer_data : CustomerRecord) (replacements : ReplacementMap)
  (templates : list string) (w : World) :
  readable World Bytes extractall read_text template_dir templates ->
  (forall path tree w', snd (write_archive path tree w') = None) ->
  outcomes World
    (process_docx_xml World Bytes extractall read_text write_text
       write_archive)
    template_dir out_dir customer_data replacements templates w
  = List.map (fun t => mk_outcome t
                         (path_join out_dir (output_name customer_data t))
                         None) templates.
Proof.
  intros Hr Hw. revert w.
  induction templates as [|t rest IH]; intros w; [reflexivity|].
  cbn [outcomes List.map].
  destruct (Hr t w (or_introl eq_refl)) as [tree [He Hparts]].
  unfold process_docx_xml at 1. rewrite He.
  destruct (process_parts_succeeds replacements xml_files tree
              xml_files_NoDup Hparts) as [tree' ->].
  pose proof (Hw (path_join out_dir (output_name customer_data t)) tree' w)
    as Hnone.
  destruct (write_archive _ tree' w) as [w' r]. cbn [snd] in Hnone.
  subst r. f_equal. apply IH.
  intros t' w0 Hin. apply Hr. now right.
Qed.

(** X27: when every container of the batch can be extracted, its named
    parts are text and the archives can be written, [generate_package] with
    [process_docx_xml] reports no error and generates one document for each
    template, in the order of the templates, under the name derived from
    the template name. *)
Theorem generate_package_all_readable
  (template_dir out_dir : string) (customer_data : CustomerRecord)
  (w w1 : World) (replacements : ReplacementMap) (names : list string) :
  makedirs out_dir w = Ok w1 ->
  prepare_replacements customer_data = Ok replacements ->
  listdir template_dir w1 = Ok names ->
  readable World Bytes extractall read_text template_dir
    (sort_names (filter is_docx names)) ->
  (forall path tree w', snd (write_archive path tree w') = None) ->
  exists r w',
    generate_package World makedirs listdir
      (process_docx_xml World Bytes extractall read_text write_text
         write_archive)
      template_dir customer_data out_dir w = Ok (r, w')
    /\ errors r = []
    /\ generated r
       = List.map (fun t => path_join out_dir (output_name customer_data t))
           (sort_names (filter is_docx names)).
Proof.
  intros Hmk Hprep Hls Hr Hw.
  unfold generate_package. rewrite Hmk. cbn [bind].
  rewrite Hprep. cbn [bind]. rewrite Hls. cbn [bind].
  change (filter (fun f => PyStr.endswith f ".docx") names)
    with (filter is_docx names).
  destruct (process_templates_outcomes World
              (process_docx_xml World Bytes extractall read_text write_text
                 write_archive)
              template_dir out_dir customer_data replacements
              (sort_names (filter is_docx names)) [] [] w1) as [w' E].
  cbn zeta in E. rewrite E.
  rewrite (outcomes_readable _ _ _ _ _ _ Hr Hw).
  eexists. exists w'. split; [reflexivity|].
  cbn [errors generated List.app].
  apply (all_succeeded
           (fun t => path_join out_dir (output_name customer_data t))).
Qed.

End ReadableCorpus.

Lemma generate_package_all_readable_witness :
  exists r w',
    generate_package nat corpus_makedirs corpus_readable_listdir
      (process_docx_xml nat string corpus_extractall_at corpus_read_text
         (fun text => text) corpus_write_archive)
      "templates" sample_data "out" O = Ok (r, w')
    /\ errors r = []
    /\ generated r = ["out/bare.docx"; "out/good.docx"].
Proof.
  apply (generate_package_all_readable nat string corpus_makedirs
           corpus_readable_listdir corpus_extractall_at corpus_read_text
           (fun text => text) corpus_write_archive
           "templates" "out" sample_data O O sample_replacements
           ["good.docx"; "bare.docx"; "notes.txt"]).
  - reflexivity.
  - vm_compute. reflexivity.
  - reflexivity.
  - intros t w [<-|[<-|[]]].
    + eexists. split; [reflexivity|].
      intros name b H.
      repeat (destruct H as [<-|H]; [discriminate|]). destruct H.
    + eexists. split; [reflexivity|].
      intros name b H Hb.
      destruct H as [<-|[<-|H]].
      * vm_compute in Hb. injection Hb as <-. eexists. reflexivity.
      * vm_compute in Hb. injection Hb as <-. eexists. reflexivity.
      * repeat (destruct H as [<-|H]; [discriminate|]). destruct H.
  - reflexivity.
Defined.
